(** * discursos_milei: the crawl / extract / merge pipeline

    A shallow embedding of the two scripts of the repository,

    - [collect_and_update_data.py] (module [Collect]): sequential fetching,
      replace-and-sort merge into the CSV store;
    - [monitor_website.py] (module [Monitor]): concurrent fetching,
      append-only merge into the CSV store;

    together with the parts of the Python libraries they call
    ([str] methods, [bs4], [datetime.strptime], [urllib.parse.urljoin],
    [asyncio.gather], [DataFrame.sort_values]).

    Conventions.  A Python [str] is a [string] holding ASCII text (Unicode
    white space, Unicode digits and non-ASCII case mappings are outside the
    model).  A call that may raise returns a [pyresult].  The missing values
    [None] and [numpy.nan] are kept apart in [pyval]. *)

From Stdlib Require Import ZArith Ascii String List Bool Lia Permutation Sorted.
From stdpp Require Import base option list sets gmap strings sorting.

Local Open Scope Z_scope.

(* ===================================================================== *)
(** * Python values, exceptions, [str] methods *)
(* ===================================================================== *)

Module Py.

(** The exceptions that the scripts can meet. *)
Inductive exn := AttributeError | ValueError.

Inductive pyresult (A : Type) :=
| Ret (a : A)
| Raise (e : exn).
Arguments Ret {A} a.
Arguments Raise {A} e.

Definition bind {A B} (m : pyresult A) (k : A -> pyresult B) : pyresult B :=
  match m with
  | Ret a => k a
  | Raise e => Raise e
  end.

(** A value of a record field: a string, [None], or [numpy.nan]. *)
Inductive pyval :=
| PStr (s : string)
| PNone
| PNaN.

Definition ascii_in (lo hi : nat) (c : ascii) : bool :=
  (Nat.leb lo (nat_of_ascii c) && Nat.leb (nat_of_ascii c) hi)%bool.

(** [str.isspace] on ASCII: TAB LF VT FF CR, FS GS RS US, SPACE. *)
Definition isspace (c : ascii) : bool :=
  (ascii_in 9 13 c || ascii_in 28 32 c)%bool.

Definition isdigit (c : ascii) : bool := ascii_in 48 57 c.

Definition lower_char (c : ascii) : ascii :=
  if ascii_in 65 90 c then ascii_of_nat (nat_of_ascii c + 32) else c.

(** [s.lower()] *)
Fixpoint lower (s : string) : string :=
  match s with
  | EmptyString => EmptyString
  | String c s' => String (lower_char c) (lower s')
  end.

(** [sub in s] *)
Fixpoint contains (sub s : string) : bool :=
  (String.prefix sub s ||
   match s with
   | EmptyString => false
   | String _ s' => contains sub s'
   end)%bool.

(** Every character of [s] is in the class [p]. *)
Fixpoint all_chars (p : ascii -> bool) (s : string) : bool :=
  match s with
  | EmptyString => true
  | String c s' => p c && all_chars p s'
  end.

(** [c in s] for a character. *)
Fixpoint occurs (c : ascii) (s : string) : bool :=
  match s with
  | EmptyString => false
  | String a s' => Ascii.eqb a c || occurs c s'
  end.

(** [s.replace(old, new)]: the occurrences of [old] are replaced from left
    to right, without overlap.  [skip] counts the characters of a matched
    occurrence that are still to be dropped. *)
Fixpoint replace_from (old new : string) (skip : nat) (s : string) : string :=
  match s with
  | EmptyString => EmptyString
  | String c s' =>
      match skip with
      | S k => replace_from old new k s'
      | O =>
          if String.prefix old s
          then new +:+ replace_from old new (Nat.pred (String.length old)) s'
          else String c (replace_from old new O s')
      end
  end.

(** With an empty [old], Python puts [new] before every character and at
    the end. *)
Fixpoint intersperse (new s : string) : string :=
  match s with
  | EmptyString => new
  | String c s' => new +:+ String c (intersperse new s')
  end.

Definition replace (old new s : string) : string :=
  match old with
  | EmptyString => intersperse new s
  | _ => replace_from old new O s
  end.

(** [s.split()]: the maximal runs of non-space characters.  [cur] is the
    word being read. *)
Fixpoint split_go (cur : string) (s : string) : list string :=
  match s with
  | EmptyString =>
      match cur with EmptyString => [] | _ => [cur] end
  | String c s' =>
      if isspace c
      then match cur with
           | EmptyString => split_go EmptyString s'
           | _ => cur :: split_go EmptyString s'
           end
      else split_go (cur +:+ String c EmptyString) s'
  end.

Definition split (s : string) : list string := split_go EmptyString s.

(** [sep.join(l)] *)
Fixpoint join (sep : string) (l : list string) : string :=
  match l with
  | [] => EmptyString
  | [x] => x
  | x :: l' => x +:+ sep +:+ join sep l'
  end.

(** [l[1:]] *)
Definition slice_from_1 {A} (l : list A) : list A := List.tl l.

(** [int(s)] for a string of decimal digits, white space around it
    ignored; [None] where Python raises. *)
Fixpoint digits_value (acc : Z) (s : string) : option Z :=
  match s with
  | EmptyString => Some acc
  | String c s' =>
      if isdigit c
      then digits_value (10 * acc + (Z.of_nat (nat_of_ascii c) - 48)) s'
      else None
  end.

Definition int (s : string) : option Z :=
  match split s with
  | [w] => digits_value 0 w
  | _ => None
  end.

Definition digit_char (d : Z) : ascii := ascii_of_nat (Z.to_nat (48 + d mod 10)).

(** [str(n)] for [0 <= n]: the decimal digits, without padding. *)
Fixpoint str_of_Z_go (fuel : nat) (n : Z) (acc : string) : string :=
  let acc' := String (digit_char n) acc in
  match fuel with
  | O => acc'
  | S f => if n <? 10 then acc' else str_of_Z_go f (n / 10) acc'
  end.

Definition str_of_Z (n : Z) : string :=
  str_of_Z_go (Z.to_nat (Z.log2 n)) n EmptyString.

(** Zero-padded decimal rendering on two and on four digits
    (["%02d"], ["%04d"]). *)
Definition pad2 (n : Z) : string :=
  String (digit_char (n / 10)) (String (digit_char n) EmptyString).

Definition pad4 (n : Z) : string :=
  String (digit_char (n / 1000)) (String (digit_char (n / 100))
    (String (digit_char (n / 10)) (String (digit_char n) EmptyString))).

End Py.

Export Py.

(** The exception monad, with stdpp's [x ← m; k] notation. *)
#[global] Instance pyresult_ret : MRet pyresult := fun A a => Ret a.
#[global] Instance pyresult_bind : MBind pyresult := fun A B k m => Py.bind m k.

(* ===================================================================== *)
(** * [bs4]: the parsed document *)
(* ===================================================================== *)

Module Bs4.

#[local] Set Warnings "-register-all".

(** A parsed page: text nodes and elements.  The attributes of an element
    are the dictionary [tag.attrs]. *)
Inductive node :=
| NavigableString (s : string)
| Tag (name : string) (attrs : gmap string string) (contents : list node).

(** The [BeautifulSoup] object is the root element, named [[document]]. *)
Definition BeautifulSoup (contents : list node) : node :=
  Tag "[document]" ∅ contents.

Definition contents (n : node) : list node :=
  match n with
  | NavigableString _ => []
  | Tag _ _ cs => cs
  end.

Definition is_tag (name : string) (n : node) : bool :=
  match n with
  | NavigableString _ => false
  | Tag nm _ _ => bool_decide (nm = name)
  end.

(** [tag.get(key)] *)
Definition get (key : string) (n : node) : option string :=
  match n with
  | NavigableString _ => None
  | Tag _ attrs _ => attrs !! key
  end.

(** [tag.text]: the strings below the node, in document order. *)
Fixpoint text (n : node) : string :=
  match n with
  | NavigableString s => s
  | Tag _ _ cs =>
      (fix go (l : list node) : string :=
         match l with
         | [] => EmptyString
         | c :: l' => text c +:+ go l'
         end) cs
  end.

(** [tag.find(name)]: the first element called [name] below the node, in
    document order. *)
Fixpoint find (name : string) (n : node) : option node :=
  match n with
  | NavigableString _ => None
  | Tag _ _ cs =>
      (fix go (l : list node) : option node :=
         match l with
         | [] => None
         | c :: l' =>
             if is_tag name c then Some c
             else match find name c with
                  | Some r => Some r
                  | None => go l'
                  end
         end) cs
  end.

(** [tag.find_all(name)]: every element called [name] below the node, in
    document order. *)
Fixpoint find_all (name : string) (n : node) : list node :=
  match n with
  | NavigableString _ => []
  | Tag _ _ cs =>
      (fix go (l : list node) : list node :=
         match l with
         | [] => []
         | c :: l' =>
             (if is_tag name c then [c] else []) ++ find_all name c ++ go l'
         end) cs
  end.

(** ** CSS selection, for selectors made of compound selectors
    [tag#id.class...] separated by the descendant combinator. *)

Record compound := Compound {
  c_tag : string;
  c_id : option string;
  c_classes : list string
}.

(** Reading one compound selector: [tag], then [#id] and [.class] parts.
    [mode] is the part being read: 0 the tag, 1 an id, 2 a class. *)
Fixpoint parse_compound_go (mode : nat) (cur : string) (acc : compound)
    (s : string) : compound :=
  let flush :=
    match mode with
    | O => Compound cur (c_id acc) (c_classes acc)
    | 1%nat => Compound (c_tag acc) (Some cur) (c_classes acc)
    | _ => Compound (c_tag acc) (c_id acc) (c_classes acc ++ [cur])
    end in
  match s with
  | EmptyString => flush
  | String c s' =>
      if Ascii.eqb c "#" then parse_compound_go 1 EmptyString flush s'
      else if Ascii.eqb c "." then parse_compound_go 2 EmptyString flush s'
      else parse_compound_go mode (cur +:+ String c EmptyString) acc s'
  end.

Definition parse_compound (s : string) : compound :=
  parse_compound_go 0 EmptyString (Compound EmptyString None []) s.

Definition parse_selector (s : string) : list compound :=
  List.map parse_compound (Py.split s).

(** An element matches a compound selector when it has the tag name, the
    id and every class; [class] is a white-space separated list. *)
Definition matches (c : compound) (n : node) : bool :=
  match n with
  | NavigableString _ => false
  | Tag nm attrs _ =>
      bool_decide (nm = c_tag c)
      && match c_id c with
         | None => true
         | Some i => bool_decide (attrs !! "id" = Some i)
         end
      && forallb (fun cl =>
           bool_decide (cl ∈ Py.split (default EmptyString (attrs !! "class"))))
           (c_classes c)
  end.

(** The selected elements among [n] and the elements below it.  [rem] is
    what is left of the selector once its compounds have been matched,
    outermost first, against the ancestors of [n]; the last compound is for
    the selected element itself. *)
Fixpoint select_in (rem : list compound) (n : node) : list node :=
  match n with
  | NavigableString _ => []
  | Tag _ _ cs =>
      match rem with
      | [] => []
      | [c] =>
          (if matches c n then [n] else []) ++ flat_map (select_in [c]) cs
      | c :: rem' =>
          flat_map (select_in (if matches c n then rem' else rem)) cs
      end
  end.

(** [soup.select(selector)] *)
Definition select (selector : string) (soup : node) : list node :=
  flat_map (select_in (parse_selector selector)) (contents soup).

End Bs4.

Export Bs4.

(* ===================================================================== *)
(** * [datetime]: [strptime] and [strftime] *)
(* ===================================================================== *)

Module Datetime.

(** The regular expressions that [_strptime] builds from a format.  A
    match is computed as the list of the ways to match a prefix of the
    input, in the order in which a backtracking matcher finds them. *)
Inductive regex :=
| Class (p : ascii -> bool)
| Cat (r1 r2 : regex)
| Alt (r1 r2 : regex)
| Plus (p : ascii -> bool).

(** A way to match: the text matched and the input left. *)
Definition found := (string * string)%type.

Definition extend (c : ascii) (f : found) : found := (String c f.1, f.2).

(** One or more characters of a class, the longest run first. *)
Fixpoint plus_class (p : ascii -> bool) (s : string) : list found :=
  match s with
  | EmptyString => []
  | String c s' =>
      if p c
      then List.map (extend c) (plus_class p s') ++ [(String c EmptyString, s')]
      else []
  end.

Fixpoint rmatch (r : regex) (s : string) : list found :=
  match r with
  | Class p =>
      match s with
      | EmptyString => []
      | String c s' => if p c then [(String c EmptyString, s')] else []
      end
  | Cat r1 r2 =>
      flat_map (fun f1 : found =>
        List.map (fun f2 : found => (f1.1 +:+ f2.1, f2.2)) (rmatch r2 f1.2))
        (rmatch r1 s)
  | Alt r1 r2 => rmatch r1 s ++ rmatch r2 s
  | Plus p => plus_class p s
  end.

Definition range (lo hi : string) : regex :=
  match lo, hi with
  | String a _, String b _ => Class (ascii_in (nat_of_ascii a) (nat_of_ascii b))
  | _, _ => Class (fun _ => false)
  end.

(** A letter of the format, matched with [IGNORECASE]. *)
Definition letter (l : string) : regex :=
  match l with
  | String a _ => Class (fun c => Ascii.eqb (lower_char c) a)
  | _ => Class (fun _ => false)
  end.

Definition digit : regex := Class isdigit.
Definition blank : regex := Class (Ascii.eqb " ").

(** [%d]: [3[0-1]|[1-2]\d|0[1-9]|[1-9]| [1-9]] *)
Definition re_d : regex :=
  Alt (Cat (range "3" "3") (range "0" "1"))
 (Alt (Cat (range "1" "2") digit)
 (Alt (Cat (range "0" "0") (range "1" "9"))
 (Alt (range "1" "9")
      (Cat blank (range "1" "9"))))).

(** [%m]: [1[0-2]|0[1-9]|[1-9]] *)
Definition re_m : regex :=
  Alt (Cat (range "1" "1") (range "0" "2"))
 (Alt (Cat (range "0" "0") (range "1" "9"))
      (range "1" "9")).

(** [%Y]: [\d\d\d\d] *)
Definition re_Y : regex := Cat digit (Cat digit (Cat digit digit)).

(** [" de "] in the format: [\s+de\s+] *)
Definition re_de : regex :=
  Cat (Plus isspace) (Cat (letter "d") (Cat (letter "e") (Plus isspace))).

(** [format_regex.match(data_string)] for the format ["%d de %m de %Y"]:
    the groups [d], [m], [Y] and the unconverted rest of the first match. *)
Definition format_match (data_string : string)
    : option (string * string * string * string) :=
  head ('(d, s1) ← rmatch re_d data_string;
        '(_, s2) ← rmatch re_de s1;
        '(m, s3) ← rmatch re_m s2;
        '(_, s4) ← rmatch re_de s3;
        '(Y, rest) ← rmatch re_Y s4;
        [(d, m, Y, rest)]).

Record date := Date { year : Z; month : Z; day : Z }.

Definition isleap (y : Z) : bool :=
  (y mod 4 =? 0) && (negb (y mod 100 =? 0) || (y mod 400 =? 0)).

Definition days_in_month (y m : Z) : Z :=
  if m =? 2 then (if isleap y then 29 else 28)
  else if (m =? 4) || (m =? 6) || (m =? 9) || (m =? 11) then 30
  else 31.

(** [datetime.date(year, month, day)] *)
Definition datetime_date (y m d : Z) : pyresult date :=
  if (1 <=? y) && (y <=? 9999) && (1 <=? m) && (m <=? 12)
     && (1 <=? d) && (d <=? days_in_month y m)
  then Ret (Date y m d)
  else Raise ValueError.

(** [datetime.datetime.strptime(data_string, "%d de %m de %Y")] *)
Definition strptime (data_string : string) : pyresult date :=
  match format_match data_string with
  | None => Raise ValueError
  | Some (d, m, Y, rest) =>
      match rest with
      | String _ _ => Raise ValueError
      | EmptyString =>
          match Py.int Y, Py.int m, Py.int d with
          | Some y, Some mo, Some dd => datetime_date y mo dd
          | _, _, _ => Raise ValueError
          end
      end
  end.

(** [dt.strftime("%Y-%m-%d")].  The C library prints [%Y] as the decimal
    year, which has four digits from the year 1000 on ([glibc] does not
    zero-fill the earlier years), and [%m], [%d] on two digits. *)
Definition strftime (dt : date) : string :=
  Py.str_of_Z (year dt) +:+ "-" +:+ pad2 (month dt) +:+ "-" +:+ pad2 (day dt).

End Datetime.

(* ===================================================================== *)
(** * [urllib.parse]: [urljoin] *)
(* ===================================================================== *)

Module Urllib.

Fixpoint take (n : nat) (s : string) : string :=
  match n, s with
  | S k, String c s' => String c (take k s')
  | _, _ => EmptyString
  end.

Fixpoint drop (n : nat) (s : string) : string :=
  match n, s with
  | S k, String _ s' => drop k s'
  | _, _ => s
  end.

(** [s.find(c)] *)
Fixpoint find_char (c : ascii) (s : string) : option nat :=
  match s with
  | EmptyString => None
  | String a s' =>
      if Ascii.eqb a c then Some O else S <$> find_char c s'
  end.

(** [s.rfind(c)] *)
Fixpoint rfind_char (c : ascii) (s : string) : option nat :=
  match s with
  | EmptyString => None
  | String a s' =>
      match rfind_char c s' with
      | Some i => Some (S i)
      | None => if Ascii.eqb a c then Some O else None
      end
  end.

(** [s.split(c)] *)
Fixpoint split_on (c : ascii) (cur : string) (s : string) : list string :=
  match s with
  | EmptyString => [cur]
  | String a s' =>
      if Ascii.eqb a c then cur :: split_on c EmptyString s'
      else split_on c (cur +:+ String a EmptyString) s'
  end.

(** [s.split(c, 1)] when [c] is in [s]; otherwise [s] and the default. *)
Definition cut (c : ascii) (s : string) : string * string :=
  match find_char c s with
  | Some i => (take i s, drop (S i) s)
  | None => (s, EmptyString)
  end.

Fixpoint lstrip (p : ascii -> bool) (s : string) : string :=
  match s with
  | EmptyString => EmptyString
  | String c s' => if p c then lstrip p s' else s
  end.

Fixpoint remove_chars (p : ascii -> bool) (s : string) : string :=
  match s with
  | EmptyString => EmptyString
  | String c s' =>
      if p c then remove_chars p s' else String c (remove_chars p s')
  end.

Definition uses_relative : list string :=
  [""; "ftp"; "http"; "gopher"; "nntp"; "imap"; "wais"; "file"; "https";
   "shttp"; "mms"; "prospero"; "rtsp"; "rtspu"; "sftp"; "svn"; "svn+ssh";
   "ws"; "wss"].

Definition uses_netloc : list string :=
  [""; "ftp"; "http"; "gopher"; "nntp"; "telnet"; "imap"; "wais"; "file";
   "mms"; "https"; "shttp"; "snews"; "prospero"; "rtsp"; "rtspu"; "rsync";
   "svn"; "svn+ssh"; "sftp"; "nfs"; "git"; "git+ssh"; "ws"; "wss"].

Definition uses_params : list string :=
  [""; "ftp"; "hdl"; "prospero"; "http"; "imap"; "https"; "shttp"; "rtsp";
   "rtspu"; "sip"; "sips"; "mms"; "sftp"; "tel"].

Definition isalpha (c : ascii) : bool := ascii_in 65 90 c || ascii_in 97 122 c.

Definition scheme_char (c : ascii) : bool :=
  isalpha c || isdigit c || Ascii.eqb c "+" || Ascii.eqb c "-" || Ascii.eqb c ".".

Definition c0_control_or_space (c : ascii) : bool := ascii_in 0 32 c.

Definition unsafe_byte (c : ascii) : bool :=
  Ascii.eqb c "009" || Ascii.eqb c "013" || Ascii.eqb c "010".

Definition in_list (x : string) (l : list string) : bool := bool_decide (x ∈ l).

Definition nonempty (s : string) : bool :=
  match s with EmptyString => false | _ => true end.

Record parsed := Parsed {
  scheme : string; netloc : string; path : string;
  params : string; query : string; fragment : string
}.

(** [_splitnetloc(url, 2)]: the authority ends at the first of [/?#]. *)
Fixpoint splitnetloc (cur url : string) : string * string :=
  match url with
  | EmptyString => (cur, EmptyString)
  | String c url' =>
      if Ascii.eqb c "/" || Ascii.eqb c "?" || Ascii.eqb c "#"
      then (cur, url)
      else splitnetloc (cur +:+ String c EmptyString) url'
  end.

(** [urlsplit(url, scheme)], for authorities without an IPv6 literal in
    brackets (there Python validates the address and may raise). *)
Definition urlsplit (url default_scheme : string) : parsed :=
  let url := lstrip c0_control_or_space url in
  let url := remove_chars unsafe_byte url in
  let '(scheme, url) :=
    match find_char ":" url, url with
    | Some (S i), String c0 _ =>
        if isalpha c0 && all_chars scheme_char (take (S i) url)
        then (Py.lower (take (S i) url), drop (S (S i)) url)
        else (default_scheme, url)
    | _, _ => (default_scheme, url)
    end in
  let '(netloc, url) :=
    if String.prefix "//" url then splitnetloc EmptyString (drop 2 url)
    else (EmptyString, url) in
  let '(url, fragment) := cut "#" url in
  let '(url, query) := cut "?" url in
  Parsed scheme netloc url EmptyString query fragment.

(** [_splitparams(url)], called when [;] is in [url]. *)
Definition splitparams (url : string) : string * string :=
  let start := default O (rfind_char "/" url) in
  match find_char ";" (drop start url) with
  | Some i => (take (start + i) url, drop (S (start + i)) url)
  | None => (url, EmptyString)
  end.

Definition urlparse (url default_scheme : string) : parsed :=
  let r := urlsplit url default_scheme in
  if in_list (scheme r) uses_params && Py.contains ";" (path r)
  then let '(p, ps) := splitparams (path r) in
       Parsed (scheme r) (netloc r) p ps (query r) (fragment r)
  else r.

Definition urlunsplit (scheme netloc url query fragment : string) : string :=
  let url :=
    if nonempty netloc
       || (nonempty scheme && in_list scheme uses_netloc
           && negb (String.prefix "//" url))
    then "//" +:+ netloc +:+
         (if nonempty url && negb (String.prefix "/" url)
          then "/" +:+ url else url)
    else url in
  let url := if nonempty scheme then scheme +:+ ":" +:+ url else url in
  let url := if nonempty query then url +:+ "?" +:+ query else url in
  if nonempty fragment then url +:+ "#" +:+ fragment else url.

Definition urlunparse (r : parsed) : string :=
  let url := if nonempty (params r)
             then path r +:+ ";" +:+ params r else path r in
  urlunsplit (scheme r) (netloc r) url (query r) (fragment r).

(** The loop of [urljoin] over the segments, [resolved] in reverse. *)
Fixpoint resolve (resolved : list string) (segments : list string) : list string :=
  match segments with
  | [] => List.rev resolved
  | seg :: segments' =>
      if String.eqb seg ".." then resolve (List.tl resolved) segments'
      else if String.eqb seg "." then resolve resolved segments'
      else resolve (seg :: resolved) segments'
  end.

(** [segments[1:-1] = filter(None, segments[1:-1])] *)
Definition filter_inner (segments : list string) : list string :=
  match segments with
  | [] => []
  | [x] => [x]
  | x :: l =>
      x :: List.filter nonempty (List.removelast l) ++ [List.last l EmptyString]
  end.

Definition urljoin (base url : string) : string :=
  if negb (nonempty base) then url
  else if negb (nonempty url) then base
  else
    let b := urlparse base EmptyString in
    let u := urlparse url (scheme b) in
    if negb (String.eqb (scheme u) (scheme b))
       || negb (in_list (scheme u) uses_relative)
    then url
    else if in_list (scheme u) uses_netloc && nonempty (netloc u)
    then urlunparse u
    else
      let netloc := if in_list (scheme u) uses_netloc
                    then netloc b else netloc u in
      if negb (nonempty (path u)) && negb (nonempty (params u))
      then urlunparse
             (Parsed (scheme u) netloc (path b) (params b)
                (if nonempty (query u) then query u else query b)
                (fragment u))
      else
        let base_parts := split_on "/" EmptyString (path b) in
        let base_parts :=
          if nonempty (List.last base_parts EmptyString)
          then List.removelast base_parts else base_parts in
        let segments :=
          if String.prefix "/" (path u)
          then split_on "/" EmptyString (path u)
          else filter_inner (base_parts ++ split_on "/" EmptyString (path u)) in
        let resolved := resolve [] segments in
        let last := List.last segments EmptyString in
        let resolved :=
          if String.eqb last "." || String.eqb last ".."
          then resolved ++ [EmptyString] else resolved in
        let joined := Py.join "/" resolved in
        urlunparse
          (Parsed (scheme u) netloc
             (if nonempty joined then joined else "/")
             (params u) (query u) (fragment u)).

End Urllib.

(* ===================================================================== *)
(** * The network, the records, [pandas] and [asyncio] *)
(* ===================================================================== *)

(** What a GET request gives: the request raises ([requests.RequestException],
    [aiohttp.ClientError]) or a response arrives, with its status code and
    its body as [BeautifulSoup(text, "html.parser")] parses it. *)
Inductive response :=
| RequestFailed
| Response (status_code : Z) (body : node).

(** [response.raise_for_status()] of [requests] raises for 4xx and 5xx. *)
Definition raises_for_status (status_code : Z) : bool :=
  (400 <=? status_code) && (status_code <? 600).

(** A row of the table [title, content, date, url]. *)
Record record := Row {
  title : pyval;
  content : pyval;
  date : pyval;
  url : string
}.

#[global] Instance pyval_eq_dec : EqDecision pyval.
Proof. solve_decision. Defined.

#[global] Instance record_eq_dec : EqDecision record.
Proof. solve_decision. Defined.

Module Pandas.

(** [pandas.isna] *)
Definition isna (v : pyval) : bool :=
  match v with
  | PStr _ => false
  | PNone | PNaN => true
  end.

(** [a] may stand before [b] in a column sorted with [ascending=False]
    and the default [na_position='last']: strings in decreasing order,
    missing values at the end. *)
Definition desc (a b : pyval) : bool :=
  match a, b with
  | PStr x, PStr y => String.leb y x
  | _, _ => isna b
  end.

Definition date_desc (a b : record) : Prop := desc (date a) (date b) = true.

(** [df.sort_values(by='date', ascending=False)] with the default
    [kind='quicksort'], which the documentation of pandas gives as not
    stable: the rows are permuted into an order sorted on the key, and
    nothing is promised on the rows with equal keys. *)
Class SortValues := {
  sort_values : list record -> list record;
  sort_values_perm : forall df, sort_values df ≡ₚ df;
  sort_values_sorted : forall df, StronglySorted date_desc (sort_values df)
}.

End Pandas.

Export Pandas.

Module Asyncio.

(** [asyncio.gather].  A task is given by the result it ends
    with; [order] is the order in which the tasks complete.  A task that
    completes stores its result in its own slot, and [gather] returns the
    slots, in the order of the tasks, once every slot is filled ([None]
    until then). *)
Definition complete {A} (tasks : list A) (slots : list (option A)) (i : nat)
    : list (option A) :=
  match tasks !! i with
  | Some r => <[i := Some r]> slots
  | None => slots
  end.

Definition gather {A} (tasks : list A) (order : list nat) : option (list A) :=
  mapM id (foldl (complete tasks) (replicate (length tasks) None) order).

End Asyncio.

(** The store after a run: what the run wrote or, if it died with an
    exception before writing, what was there. *)
Definition after_run {S} (before : S) (run : pyresult S) : S :=
  match run with
  | Ret s => s
  | Raise _ => before
  end.

(** [a.get("href").lower()], [date.split()]: methods of [str], which a
    missing value does not have. *)
Definition method_lower (v : option string) : pyresult string :=
  match v with
  | Some s => Ret (Py.lower s)
  | None => Raise AttributeError
  end.

Definition method_split (v : pyval) : pyresult (list string) :=
  match v with
  | PStr s => Ret (Py.split s)
  | PNone | PNaN => Raise AttributeError
  end.

Definition article_selector : string :=
  "html body div#jm-allpage.nofluid div#jm-mainpage div#jm-mainpage-in div#jm-main.lcr.scheme1.nocolumns.clearfix div#jm-maincontent main.home-special.home-mid div.container section div.row.row-extra.row-news.row-clear-4 div.blog div.contentboxes div.box.col-sm-6.col-md-3 div.item".

Definition month_map : list (string * string) :=
  [("enero", "01"); ("febrero", "02"); ("marzo", "03"); ("abril", "04");
   ("mayo", "05"); ("junio", "06"); ("julio", "07"); ("agosto", "08");
   ("septiembre", "09"); ("octubre", "10"); ("noviembre", "11");
   ("diciembre", "12")].

(** [for month_name, month_number in month_map.items():
       date = date.replace(month_name, month_number)] *)
Definition replace_months (date : string) : string :=
  foldl (fun date '(month_name, month_number) =>
           Py.replace month_name month_number date) date month_map.

(** The characters CR and LF. *)
Definition CR : string := String "013" EmptyString.
Definition LF : string := String "010" EmptyString.

(* ===================================================================== *)
(** * [collect_and_update_data.py] *)
(* ===================================================================== *)

Module Collect.
Section Script.

Variable http_get : string -> response.
Context `{SortValues}.

(** The comprehension of [get_discursos_urls] over the anchors. *)
Fixpoint discursos_urls (base_url keyword : string) (anchors : list node)
    : pyresult (list string) :=
  match anchors with
  | [] => Ret []
  | a :: anchors' =>
      href ← method_lower (Bs4.get "href" a);
      if Py.contains keyword href
      then rest ← discursos_urls base_url keyword anchors';
           Ret (Urllib.urljoin base_url (default EmptyString (Bs4.get "href" a))
                  :: rest)
      else discursos_urls base_url keyword anchors'
  end.

Definition get_discursos_urls (base_url keyword : string)
    : pyresult (list string) :=
  match http_get base_url with
  | RequestFailed => Ret []
  | Response status_code soup =>
      if raises_for_status status_code then Ret []
      else
        let articles := Bs4.select article_selector soup in
        discursos_urls base_url keyword
          (flat_map (Bs4.find_all "a") articles)
  end.

(** The file [./data/discursos_<keyword>.csv] is [None] when it does not
    exist, and else the rows under its header. *)
Definition check_csv_exists_and_fetch_missing
    (csv : option (list record)) (keyword base_url : string)
    : pyresult (list string) :=
  let existing_urls :=
    match csv with
    | Some existing_data => List.map url existing_data
    | None => []
    end in
  current_urls ← get_discursos_urls base_url keyword;
  Ret (elements ((list_to_set current_urls : gset string)
                   ∖ list_to_set existing_urls)).

Definition get_content (url : string) : option node :=
  match http_get url with
  | RequestFailed => None
  | Response status_code soup =>
      if raises_for_status status_code then None
      else if negb (status_code =? 200) then None
      else Some soup
  end.

Definition get_title (soup : node) : pyval :=
  match Bs4.find "h2" soup with
  | Some h2_tag => PStr (Bs4.text h2_tag)
  | None => PNaN
  end.

Definition get_article_content (soup : node) : pyval :=
  match Bs4.find "article" soup with
  | Some article =>
      PStr (Py.join EmptyString
              (List.map Bs4.text
                 (List.filter
                    (fun p => bool_decide (Bs4.find "strong" p = None))
                    (Bs4.find_all "p" article))))
  | None => PNaN
  end.

Definition get_date (soup : node) : pyresult pyval :=
  let date :=
    match Bs4.find "time" soup with
    | Some time_tag =>
        PStr (Py.replace LF EmptyString
                (Py.replace CR EmptyString (Bs4.text time_tag)))
    | None => PNaN
    end in
  words ← method_split date;
  let date := Py.join " " (Py.slice_from_1 words) in
  let date := replace_months date in
  match Datetime.strptime date with
  | Ret dt => Ret (PStr (Datetime.strftime dt))
  | Raise ValueError => Ret PNaN
  | Raise e => Raise e
  end.

Fixpoint create_dataframe (discursos_urls : list string)
    : pyresult (list record) :=
  match discursos_urls with
  | [] => Ret []
  | url :: discursos_urls' =>
      match get_content url with
      | Some soup =>
          let title := get_title soup in
          let content := get_article_content soup in
          date ← get_date soup;
          data ← create_dataframe discursos_urls';
          Ret (Row title content date url :: data)
      | None => create_dataframe discursos_urls'
      end
  end.

Definition base_url : string :=
  "https://www.casarosada.gob.ar/informacion/discursos/".

(** [main]: the file that the run writes. *)
Definition main (keyword : string) (csv : option (list record))
    : pyresult (option (list record)) :=
  new_urls ← check_csv_exists_and_fetch_missing csv keyword base_url;
  match new_urls with
  | _ :: _ =>
      new_data ← create_dataframe new_urls;
      match csv with
      | Some existing_data =>
          let combined_data := existing_data ++ new_data in
          Ret (Some (sort_values combined_data))
      | None => Ret (Some new_data)
      end
  | [] =>
      discursos_urls ← get_discursos_urls base_url keyword;
      df ← create_dataframe discursos_urls;
      Ret (Some df)
  end.

End Script.
End Collect.

(* ===================================================================== *)
(** * [monitor_website.py] *)
(* ===================================================================== *)

Module Monitor.
Section Script.

Variable http_get : string -> response.

(** The file is [None] when it does not exist ([FileNotFoundError]), and
    else its rows; the header line is not part of the model. *)
Definition read_csv (csv : option (list record)) : list string :=
  match csv with
  | Some df => List.map url df
  | None => []
  end.

(** The file is opened in mode ["a"] and the rows are written at its end. *)
Definition append_to_csv (data : list record) (csv : option (list record))
    : option (list record) :=
  Some (default [] csv ++ data).

(** The comprehension of [get_discursos_urls] over the anchors. *)
Fixpoint discursos_urls (base_url keyword : string) (anchors : list node)
    : pyresult (list string) :=
  match anchors with
  | [] => Ret []
  | a :: anchors' =>
      href ← method_lower (Bs4.get "href" a);
      if Py.contains keyword href
      then rest ← discursos_urls base_url keyword anchors';
           Ret ((base_url +:+ default EmptyString (Bs4.get "href" a)) :: rest)
      else discursos_urls base_url keyword anchors'
  end.

Definition get_discursos_urls (base_url keyword : string)
    : pyresult (list string) :=
  match http_get base_url with
  | RequestFailed => Ret []
  | Response status_code soup =>
      if raises_for_status status_code then Ret []
      else
        let articles := Bs4.select article_selector soup in
        discursos_urls base_url keyword
          (flat_map (Bs4.find_all "a") articles)
  end.

(** [aiohttp]'s [raise_for_status] raises from the status 400 on. *)
Definition get_content (url : string) : option node :=
  match http_get url with
  | RequestFailed => None
  | Response status_code soup =>
      if 400 <=? status_code then None else Some soup
  end.

Definition get_title (soup : node) : pyval :=
  match Bs4.find "h2" soup with
  | Some title => PStr (Bs4.text title)
  | None => PNone
  end.

Definition get_article_content (soup : node) : pyval :=
  match Bs4.find "article" soup with
  | Some article =>
      PStr (Py.join EmptyString
              (List.map Bs4.text
                 (List.filter
                    (fun p => bool_decide (Bs4.find "strong" p = None))
                    (Bs4.find_all "p" article))))
  | None => PNone
  end.

Definition get_date (soup : node) : pyresult pyval :=
  match Bs4.find "time" soup with
  | Some date =>
      let date := Py.replace LF EmptyString
                    (Py.replace CR EmptyString (Bs4.text date)) in
      let date := Py.join " " (Py.slice_from_1 (Py.split date)) in
      let date := replace_months date in
      dt ← Datetime.strptime date;
      Ret (PStr (Datetime.strftime dt))
  | None => Ret PNone
  end.

(** The loop of [create_data] over [zip(discursos_urls, soups)]. *)
Fixpoint rows_of (pairs : list (string * option node))
    : pyresult (list record) :=
  match pairs with
  | [] => Ret []
  | (url, None) :: pairs' => rows_of pairs'
  | (url, Some soup) :: pairs' =>
      let title := get_title soup in
      let content := get_article_content soup in
      date ← get_date soup;
      data ← rows_of pairs';
      Ret (Row title content date url :: data)
  end.

(** [create_data]: [None] as long as [await asyncio.gather] has not
    returned; [order] is the order in which the requests complete. *)
Definition create_data (discursos_urls : list string) (order : list nat)
    : option (pyresult (list record)) :=
  let tasks := List.map get_content discursos_urls in
  soups ← Asyncio.gather tasks order;
  Some (rows_of (zip discursos_urls soups)).

Definition base_url : string :=
  "https://www.casarosada.gob.ar/informacion/discursos/".
Definition keyword : string := "milei".

(** [main_async]: the file after the run. *)
Definition main_async (csv : option (list record)) (order : list nat)
    : option (pyresult (option (list record))) :=
  match get_discursos_urls base_url keyword with
  | Raise e => Some (Raise e)
  | Ret discursos_urls =>
      let existing_urls := read_csv csv in
      let new_urls :=
        List.filter (fun url => negb (bool_decide (url ∈ existing_urls)))
          discursos_urls in
      match new_urls with
      | _ :: _ =>
          batch ← create_data new_urls order;
          Some (data ← batch; Ret (append_to_csv data csv))
      | [] => Some (Ret csv)
      end
  end.

End Script.
End Monitor.

(* ===================================================================== *)
(** * Documents used in the examples *)
(* ===================================================================== *)

Module Examples.

Definition elt (name : string) (contents : list node) : node :=
  Tag name ∅ contents.

(** A [div] (or other element) with an id and classes. *)
Definition box (name id class : string) (contents : list node) : node :=
  Tag name
    (match id with
     | EmptyString => {[ "class" := class ]}
     | _ => {[ "id" := id; "class" := class ]}
     end) contents.

(** The markup of the index page around the boxes of the articles. *)
Definition index_page (items : list node) : node :=
  BeautifulSoup [elt "html" [elt "body" [
    box "div" "jm-allpage" "nofluid" [
    box "div" "jm-mainpage" "" [
    box "div" "jm-mainpage-in" "" [
    box "div" "jm-main" "lcr scheme1 nocolumns clearfix" [
    box "div" "jm-maincontent" "" [
    box "main" "" "home-special home-mid" [
    box "div" "" "container" [
    elt "section" [
    box "div" "" "row row-extra row-news row-clear-4" [
    box "div" "" "blog" [
    box "div" "" "contentboxes" [
    box "div" "" "box col-sm-6 col-md-3" items]]]]]]]]]]]]]].

Definition item (anchors : list node) : node := box "div" "" "item" anchors.

Definition anchor (href : string) : node :=
  Tag "a" {[ "href" := href ]} [NavigableString "Link"].

(** [<html><time>TEXT</time></html>] *)
Definition time_page (raw : string) : node :=
  BeautifulSoup [elt "html" [elt "time" [NavigableString raw]]].

(** [<html><h2>Test Title</h2></html>]: a page without [time] element. *)
Definition title_page : node :=
  BeautifulSoup [elt "html" [elt "h2" [NavigableString "Test Title"]]].

(** [<html><article><p>Content</p><p><strong>Not this</strong></p></article></html>] *)
Definition article_page : node :=
  BeautifulSoup [elt "html" [elt "article" [
    elt "p" [NavigableString "Content"];
    elt "p" [elt "strong" [NavigableString "Not this"]]]]].

(** A full article page. *)
Definition speech_page (heading raw body : string) : node :=
  BeautifulSoup [elt "html" [elt "body" [
    elt "h2" [NavigableString heading];
    elt "time" [NavigableString raw];
    elt "article" [elt "p" [NavigableString body]]]]].

(** The site: an index page with the given anchors in one article box, and
    behind every other URL of the site a speech. *)
Definition site_with (anchors : list node) (url : string) : response :=
  if String.eqb url "https://www.casarosada.gob.ar/informacion/discursos/"
  then Response 200 (index_page [item anchors])
  else if String.prefix "https://www.casarosada.gob.ar/" url
  then Response 200 (speech_page "Discurso" "lunes 13 de febrero de 2025" "Texto")
  else RequestFailed.

Definition site : string -> response := site_with [anchor "milei-speech"].

(** The index page lists the same href twice. *)
Definition site_twice : string -> response :=
  site_with [anchor "milei-speech"; anchor "milei-speech"].


(** The index page of the examples: one article box with the anchors. *)
Definition index_net (anchors : list node) (url : string) : response :=
  Response 200 (index_page [item anchors]).

(** A network where one of three articles cannot be fetched. *)
Definition batch_net (url : string) : response :=
  if String.eqb url "https://www.casarosada.gob.ar/down" then RequestFailed
  else Response 200
         (speech_page url "lunes 13 de febrero de 2025" "Texto").

(** No request succeeds. *)
Definition site_down (url : string) : response := RequestFailed.

End Examples.

(* ===================================================================== *)
(** * The words of the specification *)
(* ===================================================================== *)

Module Spec.

(** The number of a Spanish month name: enero is 1, diciembre is 12. *)
Fixpoint lookup_month (name : string) (names : list (string * string))
    (number : Z) : option Z :=
  match names with
  | [] => None
  | (n, _) :: names' =>
      if String.eqb n name then Some number
      else lookup_month name names' (number + 1)
  end.

Definition month_of_name (name : string) : option Z :=
  lookup_month name month_map 1.

(** The raw date [<dow> <day> de <month-name> de <year>]. *)
Definition raw_date (dow day name year : string) : string :=
  dow +:+ " " +:+ day +:+ " de " +:+ name +:+ " de " +:+ year.

(** [YYYY-MM-DD] *)
Definition iso_date (y m d : Z) : string :=
  pad4 y +:+ "-" +:+ pad2 m +:+ "-" +:+ pad2 d.

(** The anchors of the article boxes of an index page. *)
Definition anchors (soup : node) : list node :=
  flat_map (Bs4.find_all "a") (Bs4.select article_selector soup).

(** The hrefs that qualify: those with the keyword in their lower-case
    form. *)
Definition qualifying (keyword : string) (soup : node) : list string :=
  List.filter (fun href => Py.contains keyword (Py.lower href))
    (omap (Bs4.get "href") (anchors soup)).


(** The URL was fetched. *)
Definition fetched (get_content : string -> option node) (url : string)
    : bool :=
  match get_content url with
  | Some _ => true
  | None => false
  end.

(** The record holds what was extracted from the page of its own URL. *)
Definition extracted (get_content : string -> option node)
    (get_title get_article_content : node -> pyval)
    (get_date : node -> pyresult pyval) (r : record) : Prop :=
  exists soup,
    get_content (url r) = Some soup
    /\ title r = get_title soup
    /\ content r = get_article_content soup
    /\ get_date soup = Ret (date r).



(** The rows of a file; none when there is no file. *)
Definition rows (csv : option (list record)) : list record := default [] csv.

(** No run of [collect_and_update_data.py] deletes a record. *)
Definition collect_never_deletes : Prop :=
  forall (sorter : SortValues) http_get keyword existing r,
    r ∈ existing ->
    r ∈ rows (after_run (Some existing)
                (Collect.main http_get keyword (Some existing))).



(** With no new URL, [monitor_website.py] writes a fresh store from the
    refetch of every listed URL. *)
Definition monitor_resyncs_on_empty_delta : Prop :=
  forall http_get existing order listed fresh,
    Monitor.get_discursos_urls http_get Monitor.base_url Monitor.keyword
      = Ret listed ->
    List.filter (fun u => negb (bool_decide (u ∈ List.map url existing)))
      listed = [] ->
    Monitor.create_data http_get listed (seq 0 (length listed))
      = Some (Ret fresh) ->
    Monitor.main_async http_get (Some existing) order
      = Some (Ret (Some fresh)).

(** The nodes below a node, in document order. *)
Fixpoint descendants (n : node) : list node :=
  match n with
  | NavigableString _ => []
  | Tag _ _ cs =>
      (fix go (l : list node) : list node :=
         match l with
         | [] => []
         | c :: l' => c :: descendants c ++ go l'
         end) cs
  end.

(** [x] is below [n] in the document. *)
Inductive below (x : node) : node -> Prop :=
| below_child name attrs cs : x ∈ cs -> below x (Tag name attrs cs)
| below_deeper name attrs cs c :
    c ∈ cs -> below x c -> below x (Tag name attrs cs).

(** The first [article] container element of the document. *)
Definition first_article (soup : node) : option node :=
  head (List.filter (Bs4.is_tag "article") (descendants soup)).

(** A paragraph that itself contains a strong-emphasis element. *)
Definition contains_strong (p : node) : bool :=
  existsb (Bs4.is_tag "strong") (descendants p).

(** The paragraph elements below the article, those with a strong-emphasis
    element excluded. *)
Definition body_paragraphs (article : node) : list node :=
  List.filter (fun p => Bs4.is_tag "p" p && negb (contains_strong p))
    (descendants article).

(** Concatenation with no separator. *)
Definition concatenation (l : list string) : string :=
  List.fold_right String.append EmptyString l.

(** The content of an article document; [None] is the absent value. *)
Definition content_of (soup : node) : option string :=
  match first_article soup with
  | Some article =>
      Some (concatenation (List.map Bs4.text (body_paragraphs article)))
  | None => None
  end.

End Spec.

(* ===================================================================== *)
(** * Further notions used in the properties of the scripts *)
(* ===================================================================== *)

Module Notions.

(** The first [h2] element of the document, in document order. *)
Definition first_heading (soup : node) : option node :=
  head (List.filter (Bs4.is_tag "h2") (Spec.descendants soup)).

(** A calendar day of the years 1 to 9999. *)
Definition calendar_day (y m d : Z) : Prop :=
  1 <= y <= 9999 /\ 1 <= m <= 12 /\ 1 <= d <= Datetime.days_in_month y m.

(** A word: not empty and without white space. *)
Definition word (w : string) : Prop :=
  w <> EmptyString /\ all_chars (fun c => negb (isspace c)) w = true.

(** An upper-case letter. *)
Definition isupper (c : ascii) : bool := ascii_in 65 90 c.

(** The name with its first letter in upper case: Febrero for febrero. *)
Definition capitalize (s : string) : string :=
  match s with
  | EmptyString => EmptyString
  | String c s' =>
      String (if ascii_in 97 122 c
              then ascii_of_nat (nat_of_ascii c - 32) else c) s'
  end.

(** The index page cannot be read: the request fails or the status is an
    error. *)
Definition unreachable (http_get : string -> response) (url : string) : Prop :=
  http_get url = RequestFailed
  \/ exists status_code body,
       http_get url = Response status_code body
       /\ raises_for_status status_code = true.

(** The characters of a slug: letters, digits, hyphen and underscore. *)
Definition slug_char (c : ascii) : bool :=
  Urllib.isalpha c || isdigit c || Ascii.eqb c "-" || Ascii.eqb c "_".

(** The characters of a path of slugs. *)
Definition path_char (c : ascii) : bool := slug_char c || Ascii.eqb c "/".

(** Scheme and authority of the base URL of both scripts. *)
Definition origin : string := "https://www.casarosada.gob.ar".

End Notions.

(* ===================================================================== *)
(** * Auxiliary definitions *)
(* ===================================================================== *)

(** Classes of characters. *)
Definition nonspace (c : ascii) : bool := negb (isspace c).

Definition differs (c0 : ascii) (c : ascii) : bool := negb (Ascii.eqb c c0).

(** No character of [y] occurs in [old]. *)
Definition foreign (old y : string) : bool :=
  all_chars (fun c => negb (occurs c old)) y.

Definition islower (c : ascii) : bool := ascii_in 97 122 c.

Definition Zrange (lo len : Z) : list Z :=
  List.map Z.of_nat (seq (Z.to_nat lo) (Z.to_nat len)).

Definition year_ok (y : Z) : bool :=
  bool_decide (str_of_Z y = pad4 y)
  && all_chars isdigit (pad4 y)
  && bool_decide (Py.int (pad4 y) = Some y)
  && bool_decide (Datetime.rmatch Datetime.re_Y (pad4 y) = [(pad4 y, EmptyString)]).

(** The characters of a raw date: no white space but the blank. *)
Definition plain (c : ascii) : bool := nonspace c || Ascii.eqb c " ".

(** The rows of [create_data] once [gather] has returned. *)
Definition joined (http_get : string -> response) (urls : list string)
    : pyresult (list record) :=
  Monitor.rows_of
    (zip urls (List.map (Monitor.get_content http_get) urls)).

(** The delta of [main_async]: the listed URLs that the store does not
    hold, as often as they are listed. *)
Definition delta (csv : option (list record)) (listed : list string)
    : list string :=
  List.filter (fun u => negb (bool_decide (u ∈ Monitor.read_csv csv))) listed.

(** Induction on a document, with the hypothesis for every child. *)
Section node_induction.

Variable P : node -> Prop.
Hypothesis Hstring : forall s, P (NavigableString s).
Hypothesis Htag : forall name attrs cs, Forall P cs -> P (Tag name attrs cs).

Fixpoint node_ind_nested (n : node) : P n :=
  match n with
  | NavigableString s => Hstring s
  | Tag name attrs cs =>
      Htag name attrs cs
        ((fix go (l : list node) : Forall P l :=
            match l with
            | [] => List.Forall_nil P
            | c :: l' => List.Forall_cons P c l' (node_ind_nested c) (go l')
            end) cs)
  end.

End node_induction.

(* ===================================================================== *)
(** * Properties of the [str] methods *)
(* ===================================================================== *)

Section StrFacts.

Lemma str_app_cons c (s t : string) : String c s +:+ t = String c (s +:+ t).
Proof. reflexivity. Qed.

Lemma str_app_nil_l (t : string) : EmptyString +:+ t = t.
Proof. reflexivity. Qed.

Lemma str_app_nil_r (s : string) : s +:+ EmptyString = s.
Proof. induction s as [|c s IH]; [done|]. by rewrite str_app_cons, IH. Qed.

Lemma str_app_assoc (s t u : string) : (s +:+ t) +:+ u = s +:+ t +:+ u.
Proof. induction s as [|c s IH]; [done|]. by rewrite !str_app_cons, IH. Qed.

Lemma str_app_length (s t : string) :
  String.length (s +:+ t) = (String.length s + String.length t)%nat.
Proof. induction s as [|c s IH]; [done|]. rewrite str_app_cons. simpl. by rewrite IH. Qed.

Lemma all_chars_app p (s t : string) :
  all_chars p (s +:+ t) = all_chars p s && all_chars p t.
Proof.
  induction s as [|c s IH]; [done|].
  rewrite str_app_cons. simpl. by rewrite IH, andb_assoc.
Qed.

Lemma all_chars_impl (p q : ascii -> bool) (s : string) :
  (forall c, p c = true -> q c = true) ->
  all_chars p s = true -> all_chars q s = true.
Proof.
  intros Hpq. induction s as [|c s IH]; [done|]. simpl.
  intros [Hc Hs]%andb_prop. by rewrite (Hpq _ Hc), IH.
Qed.

(** ** [split] *)


Lemma split_go_word cur w s :
  all_chars nonspace w = true ->
  split_go cur (w +:+ s) = split_go (cur +:+ w) s.
Proof.
  revert cur. induction w as [|c w IH]; intros cur Hw.
  - by rewrite str_app_nil_l, str_app_nil_r.
  - simpl in Hw. apply andb_prop in Hw as [Hc Hw].
    rewrite str_app_cons. simpl. unfold nonspace in Hc.
    destruct (isspace c); [done|].
    rewrite IH by done. by rewrite str_app_assoc.
Qed.

Lemma split_go_blank cur s :
  cur <> EmptyString ->
  split_go cur (String " " s) = cur :: split_go EmptyString s.
Proof. intros Hcur. simpl. by destruct cur. Qed.

(** A word followed by a blank is the first item of the split. *)
Lemma split_word_blank w s :
  w <> EmptyString -> all_chars nonspace w = true ->
  split (w +:+ String " " s) = w :: split s.
Proof.
  intros Hne Hw. unfold split.
  rewrite split_go_word by done. rewrite str_app_nil_l.
  by apply split_go_blank.
Qed.

Lemma split_word w :
  w <> EmptyString -> all_chars nonspace w = true -> split w = [w].
Proof.
  intros Hne Hw. unfold split.
  rewrite <- (str_app_nil_r w) at 1. rewrite split_go_word by done.
  rewrite str_app_nil_l. simpl. by destruct w.
Qed.

(** ** [replace] *)

Lemma prefix_head_ne c0 old c s :
  Ascii.eqb c c0 = false -> String.prefix (String c0 old) (String c s) = false.
Proof.
  intros Hne. simpl. destruct (ascii_dec c0 c) as [->|]; [|done].
  by rewrite Ascii.eqb_refl in Hne.
Qed.


(** Text before which no occurrence can start is copied. *)
Lemma replace_from_head c0 old new h r :
  all_chars (differs c0) h = true ->
  replace_from (String c0 old) new 0 (h +:+ r)
  = h +:+ replace_from (String c0 old) new 0 r.
Proof.
  induction h as [|c h IH]; [done|]. simpl all_chars.
  intros [Hc Hh]%andb_prop. rewrite !str_app_cons.
  unfold differs in Hc. apply negb_true_iff in Hc.
  cbn [replace_from]. rewrite (prefix_head_ne _ _ _ _ Hc).
  by rewrite IH.
Qed.

Lemma replace_absent c0 old new s :
  all_chars (differs c0) s = true -> replace (String c0 old) new s = s.
Proof.
  intros Hs. unfold replace.
  rewrite <- (str_app_nil_r s) at 1. rewrite replace_from_head by done.
  simpl. apply str_app_nil_r.
Qed.


Lemma prefix_foreign old p y :
  foreign old y = true -> old <> EmptyString ->
  String.prefix old (p +:+ y) = true ->
  String.prefix old p = true /\ (String.length old <= String.length p)%nat.
Proof.
  intros Hy. revert p. induction old as [|a old IH]; [done|].
  intros p _ Hpre. destruct p as [|c p].
  - rewrite str_app_nil_l in Hpre. destruct y as [|b y]; [done|].
    simpl in Hpre. destruct (ascii_dec a b) as [->|]; [|done].
    unfold foreign in Hy. simpl in Hy. by rewrite Ascii.eqb_refl in Hy.
  - rewrite str_app_cons in Hpre. simpl in Hpre. simpl.
    destruct (ascii_dec a c) as [->|]; [|done].
    assert (Hy' : foreign old y = true).
    { unfold foreign in *. eapply all_chars_impl; [|exact Hy].
      intros b. simpl. intros Hb%negb_true_iff%orb_false_elim.
      apply negb_true_iff. tauto. }
    destruct old as [|a' old].
    + split; [by destruct p | simpl; lia].
    + destruct (IH Hy' p) as [? ?]; [done| |].
      * exact Hpre.
      * split; [done | simpl in *; lia].
Qed.

Lemma prefix_app_l old p y :
  String.prefix old p = true -> String.prefix old (p +:+ y) = true.
Proof.
  revert p. induction old as [|a old IH]; intros p.
  - intros _. by destruct (p +:+ y).
  - destruct p as [|c p]; [done|]. rewrite str_app_cons. simpl.
    destruct (ascii_dec a c); [apply IH | done].
Qed.

(** Text in which no character of [old] occurs, at the end of the string,
    is copied. *)
Lemma replace_from_tail old new p y k :
  foreign old y = true -> old <> EmptyString ->
  (k <= String.length p)%nat ->
  replace_from old new k (p +:+ y) = replace_from old new k p +:+ y.
Proof.
  intros Hy Hold. revert k. induction p as [|c p IH]; intros k Hk.
  - simpl in Hk. assert (k = 0%nat) as -> by lia. rewrite !str_app_nil_l.
    destruct old as [|c0 old]; [done|].
    rewrite <- (str_app_nil_r y) at 1. rewrite replace_from_head.
    + simpl. by rewrite str_app_nil_r.
    + unfold foreign in Hy. eapply all_chars_impl; [|exact Hy].
      intros b. simpl. intros Hb%negb_true_iff%orb_false_elim.
      unfold differs. apply negb_true_iff.
      rewrite Ascii.eqb_sym. tauto.
  - rewrite str_app_cons. cbn [replace_from]. simpl in Hk.
    destruct k as [|k]; [|apply IH; lia].
    rewrite <- str_app_cons.
    destruct (String.prefix old (String c p +:+ y)) eqn:Hpre.
    + destruct (prefix_foreign _ _ _ Hy Hold Hpre) as [-> Hlen].
      rewrite IH; [by rewrite str_app_assoc|]. simpl in Hlen.
      destruct old; simpl in *; lia.
    + destruct (String.prefix old (String c p)) eqn:Hpre'.
      * by rewrite (prefix_app_l _ _ y Hpre') in Hpre.
      * rewrite str_app_cons. by rewrite IH by lia.
Qed.

End StrFacts.

(* ===================================================================== *)
(** * The date normalizer *)
(* ===================================================================== *)

Section DateFacts.

Import Datetime.


Lemma digit_differs_letter c0 c :
  islower c0 = true -> isdigit c = true -> differs c0 c = true.
Proof.
  unfold islower, isdigit, ascii_in, differs.
  intros [H1 H2]%andb_prop [H3 H4]%andb_prop.
  apply negb_true_iff, Ascii.eqb_neq. intros ->.
  apply Nat.leb_le in H1, H2, H3, H4. lia.
Qed.

Lemma digit_not_in_letters name c :
  all_chars islower name = true -> isdigit c = true ->
  occurs c name = false.
Proof.
  intros Hname Hc. induction name as [|a name IH]; [done|].
  simpl in *. apply andb_prop in Hname as [Ha Hname].
  rewrite IH by done. rewrite orb_false_r.
  pose proof (digit_differs_letter a c Ha Hc) as Hd.
  unfold differs in Hd. apply negb_true_iff in Hd.
  by rewrite Ascii.eqb_sym.
Qed.

(** A replacement of a word of letters leaves the digits around. *)
Lemma replace_frame name num h mid y :
  name <> EmptyString -> all_chars islower name = true ->
  all_chars isdigit h = true -> all_chars isdigit y = true ->
  Py.replace name num (h +:+ mid +:+ y) = h +:+ Py.replace name num mid +:+ y.
Proof.
  intros Hne Hname Hh Hy. destruct name as [|c0 name]; [done|].
  unfold Py.replace. simpl in Hname. apply andb_prop in Hname as [Hc0 Hname].
  rewrite replace_from_head.
  - f_equal. apply replace_from_tail; [|done|lia].
    unfold foreign. eapply all_chars_impl; [|exact Hy].
    intros c Hc. apply negb_true_iff.
    apply digit_not_in_letters; [|done]. simpl. by rewrite Hc0, Hname.
  - eapply all_chars_impl; [|exact Hh].
    intros c Hc. by apply digit_differs_letter.
Qed.

Lemma month_map_letters :
  Forall (fun e : string * string =>
    e.1 <> EmptyString /\ all_chars islower e.1 = true) month_map.
Proof. repeat constructor; done. Qed.

Lemma replace_months_frame h mid y :
  all_chars isdigit h = true -> all_chars isdigit y = true ->
  replace_months (h +:+ mid +:+ y) = h +:+ replace_months mid +:+ y.
Proof.
  intros Hh Hy. unfold replace_months.
  generalize month_map_letters. generalize month_map as l.
  intros l. revert mid. induction l as [|[name num] l IH]; intros mid Hl.
  - done.
  - inversion Hl as [|? ? [Hne Hlow] Hl']; subst. simpl in *.
    rewrite replace_frame by done. by apply IH.
Qed.

(** ** The three fields *)


Lemma in_Zrange (lo len n : Z) :
  0 <= lo -> lo <= n < lo + len -> In n (Zrange lo len).
Proof.
  intros Hlo Hn. apply in_map_iff. exists (Z.to_nat n). split; [lia|].
  apply in_seq. lia.
Qed.


Lemma year_ok_all : forallb year_ok (Zrange 1000 9000) = true.
Proof. vm_compute. reflexivity. Qed.

Lemma year_facts y :
  1000 <= y <= 9999 ->
  str_of_Z y = pad4 y /\ all_chars isdigit (pad4 y) = true
  /\ Py.int (pad4 y) = Some y
  /\ rmatch re_Y (pad4 y) = [(pad4 y, EmptyString)].
Proof.
  intros Hy. pose proof year_ok_all as Hall.
  rewrite forallb_forall in Hall.
  specialize (Hall y (in_Zrange 1000 9000 y ltac:(lia) ltac:(lia))).
  unfold year_ok in Hall.
  repeat (apply andb_prop in Hall as [Hall ?]).
  repeat match goal with
         | H : bool_decide _ = true |- _ => apply bool_decide_eq_true in H
         end.
  auto.
Qed.

(** A day between 1 and 31, written with or without a leading zero, is
    what [%d] matches first before a blank. *)
Lemma day_facts d D :
  1 <= d <= 31 -> D = str_of_Z d \/ D = pad2 d ->
  all_chars isdigit D = true /\ D <> EmptyString /\ Py.int D = Some d
  /\ forall r, exists junk,
       rmatch re_d (D +:+ String " " r) = (D, String " " r) :: junk.
Proof.
  intros Hd HD.
  pose proof (in_Zrange 1 31 d ltac:(lia) ltac:(lia)) as Hin.
  vm_compute in Hin.
  repeat (destruct Hin as [<-|Hin]; [
    destruct HD as [-> | ->];
    (split; [reflexivity|]); (split; [discriminate|]);
    (split; [reflexivity|]); intros r; eexists; vm_compute; reflexivity
  |]).
  destruct Hin.
Qed.


(** [\s+de\s+] before a character that is not white space. *)
Lemma de_facts c r :
  isspace c = false ->
  rmatch re_de (" de " +:+ String c r) = [(" de ", String c r)].
Proof.
  destruct c as [[] [] [] [] [] [] [] []]; intros Hc;
    try discriminate Hc; vm_compute; reflexivity.
Qed.

Lemma digit_char_isdigit n : isdigit (digit_char n) = true.
Proof.
  unfold digit_char. generalize (Z.mod_pos_bound n 10 ltac:(lia)).
  generalize (n mod 10). intros k Hk.
  pose proof (in_Zrange 0 10 k ltac:(lia) ltac:(lia)) as Hin.
  vm_compute in Hin.
  repeat (destruct Hin as [<-|Hin]; [reflexivity|]). destruct Hin.
Qed.

Lemma isdigit_nonspace c : isdigit c = true -> isspace c = false.
Proof.
  destruct c as [[] [] [] [] [] [] [] []]; intros Hc;
    try discriminate Hc; reflexivity.
Qed.

Lemma digits_nonspace s :
  all_chars isdigit s = true -> all_chars nonspace s = true.
Proof.
  apply all_chars_impl. intros c Hc. unfold nonspace.
  by rewrite isdigit_nonspace.
Qed.

(** The first match of the format on [<day> de <month> de <year>]. *)
Lemma format_match_fields D MM Y :
  (forall r, exists junk,
     rmatch re_d (D +:+ String " " r) = (D, String " " r) :: junk) ->
  (forall r, exists junk,
     rmatch re_m (MM +:+ String " " r) = (MM, String " " r) :: junk) ->
  (exists c r, MM = String c r /\ isspace c = false) ->
  (exists c r, Y = String c r /\ isspace c = false) ->
  rmatch re_Y Y = [(Y, EmptyString)] ->
  format_match (D +:+ " de " +:+ MM +:+ " de " +:+ Y)
  = Some (D, MM, Y, EmptyString).
Proof.
  intros Hd Hm (c1 & r1 & HMM & Hc1) (c2 & r2 & HY & Hc2) HreY.
  unfold format_match.
  change (D +:+ " de " +:+ MM +:+ " de " +:+ Y)
    with (D +:+ String " " ("de " +:+ MM +:+ " de " +:+ Y)).
  destruct (Hd ("de " +:+ MM +:+ " de " +:+ Y)) as [junk1 ->].
  cbn [mbind list_bind]. cbn beta iota.
  change (String " " ("de " +:+ MM +:+ " de " +:+ Y))
    with (" de " +:+ MM +:+ " de " +:+ Y).
  rewrite HMM at 1. rewrite (str_app_cons c1 r1). rewrite de_facts by done.
  rewrite <- (str_app_cons c1 r1), <- HMM.
  cbn [mbind list_bind]. cbn beta iota.
  change (MM +:+ " de " +:+ Y) with (MM +:+ String " " ("de " +:+ Y)).
  destruct (Hm ("de " +:+ Y)) as [junk2 ->].
  cbn [mbind list_bind]. cbn beta iota.
  change (String " " ("de " +:+ Y)) with (" de " +:+ Y).
  rewrite HY at 1. rewrite de_facts by done. rewrite <- HY.
  cbn [mbind list_bind]. cbn beta iota. rewrite HreY.
  cbn [mbind list_bind]. cbn beta iota. reflexivity.
Qed.

Lemma days_in_month_le_31 y m : days_in_month y m <= 31.
Proof. unfold days_in_month. repeat case_match; lia. Qed.


Lemma plain_differs c0 c :
  isspace c0 = true -> Ascii.eqb c0 " " = false ->
  plain c = true -> differs c0 c = true.
Proof.
  intros H0 H1 Hc. unfold differs. apply negb_true_iff, Ascii.eqb_neq.
  intros ->. unfold plain, nonspace in Hc. by rewrite H0, H1 in Hc.
Qed.

Lemma nonspace_plain s :
  all_chars nonspace s = true -> all_chars plain s = true.
Proof.
  apply all_chars_impl. intros c Hc. unfold plain. by rewrite Hc.
Qed.

Lemma strip_newlines s :
  all_chars plain s = true ->
  Py.replace LF EmptyString (Py.replace CR EmptyString s) = s.
Proof.
  intros Hs. unfold CR, LF.
  assert (Hno : forall c0, isspace c0 = true -> Ascii.eqb c0 " " = false ->
                all_chars (differs c0) s = true).
  { intros c0 H0 H1. eapply all_chars_impl; [|exact Hs].
    intros c. by apply plain_differs. }
  rewrite (replace_absent _ _ _ s) by (by apply Hno).
  apply replace_absent. by apply Hno.
Qed.



End DateFacts.

(** ** When [get_date] raises *)

Lemma strptime_raises s e : Datetime.strptime s = Raise e -> e = ValueError.
Proof.
  unfold Datetime.strptime, Datetime.datetime_date.
  repeat case_match; congruence.
Qed.

(** With a [time] element, the script with the handler returns. *)
Lemma Collect_get_date_returns soup time_tag :
  Bs4.find "time" soup = Some time_tag ->
  exists date, Collect.get_date soup = Ret date.
Proof.
  intros Hfind. unfold Collect.get_date. rewrite Hfind.
  cbn [method_split mbind pyresult_bind Py.bind].
  destruct (Datetime.strptime _) as [dt|e] eqn:Hp; [by eexists|].
  apply strptime_raises in Hp as ->. by eexists.
Qed.

(** Without [time] element, one script raises and the other returns
    [None]. *)
Lemma get_date_without_time soup :
  Bs4.find "time" soup = None ->
  Collect.get_date soup = Raise AttributeError
  /\ Monitor.get_date soup = Ret PNone.
Proof.
  intros Hfind. unfold Collect.get_date, Monitor.get_date.
  by rewrite Hfind.
Qed.

(** C1.  [get_date] does raise.  In [collect_and_update_data.py] a page
    without [time] element makes it call [split] on [numpy.nan]:
    [AttributeError], which the handler of [ValueError] does not catch.  In
    [monitor_website.py] nothing catches the [ValueError] of [strptime]: on
    the date of its own test, "13 de febrero de 2025", whose first word is
    dropped as if it were the day of the week, it raises. *)
Theorem get_date_raises :
  Collect.get_date Examples.title_page = Raise AttributeError
  /\ Monitor.get_date (Examples.time_page "13 de febrero de 2025")
     = Raise ValueError.
Proof. split; reflexivity. Qed.



(* ===================================================================== *)
(** * The article extractor *)
(* ===================================================================== *)


Section Bs4Facts.

(** The list of the descendants holds the nodes below the node. *)
Lemma descendants_below x n : x ∈ Spec.descendants n <-> Spec.below x n.
Proof.
  induction n as [s|nm attrs cs IH] using node_ind_nested.
  { split; [by intros ?%elem_of_nil | inversion 1]. }
  assert (Hgo : forall l,
    Forall (fun c => x ∈ Spec.descendants c <-> Spec.below x c) l ->
    x ∈ (fix go (l : list node) : list node :=
           match l with
           | [] => []
           | c :: l' => c :: Spec.descendants c ++ go l'
           end) l
    <-> x ∈ l \/ exists c, c ∈ l /\ Spec.below x c).
  { induction 1 as [|c l Hc _ IHl].
    - split; [by intros ?%elem_of_nil|].
      intros [?%elem_of_nil|(c & ?%elem_of_nil & _)]; done.
    - rewrite elem_of_cons, elem_of_app, Hc, IHl. split.
      + intros [->|[Hx|[Hx|(c' & Hc' & Hx)]]].
        * left. left.
        * right. exists c. split; [left|done].
        * left. by right.
        * right. exists c'. split; [by right|done].
      + intros [[->|Hx]%elem_of_cons|(c' & [->|Hc']%elem_of_cons & Hx)];
          eauto 6. }
  cbn [Spec.descendants]. rewrite (Hgo cs IH). split.
  - intros [Hx|(c & Hc & Hx)]; [by constructor | by econstructor 2].
  - inversion 1; subst; eauto.
Qed.

Lemma find_all_descendants name n :
  Bs4.find_all name n = List.filter (Bs4.is_tag name) (Spec.descendants n).
Proof.
  induction n as [s|nm attrs cs IH] using node_ind_nested; [done|].
  simpl. induction IH as [|c l Hc _ IHl]; [done|].
  cbn [List.filter]. rewrite List.filter_app, Hc, IHl.
  by destruct (Bs4.is_tag name c).
Qed.

Lemma find_head name n : Bs4.find name n = head (Bs4.find_all name n).
Proof.
  induction n as [s|nm attrs cs IH] using node_ind_nested; [done|].
  simpl. induction IH as [|c l Hc _ IHl]; [done|].
  destruct (Bs4.is_tag name c); [done|]. rewrite Hc, IHl. simpl.
  by destruct (Bs4.find_all name c).
Qed.

Lemma find_none_iff name n :
  Bs4.find name n = None <-> existsb (Bs4.is_tag name) (Spec.descendants n) = false.
Proof.
  rewrite find_head, find_all_descendants.
  induction (Spec.descendants n) as [|c l IH]; [done|]. simpl.
  destruct (Bs4.is_tag name c); simpl; [split; discriminate | exact IH].
Qed.

Lemma join_empty l : Py.join EmptyString l = Spec.concatenation l.
Proof.
  unfold Spec.concatenation.
  induction l as [|x l IH]; [done|]. cbn [fold_right].
  rewrite <- IH. destruct l as [|x' l]; [by rewrite str_app_nil_r | done].
Qed.

(** The paragraphs that the scripts keep are the body paragraphs. *)
Lemma kept_paragraphs article :
  List.filter (fun p => bool_decide (Bs4.find "strong" p = None))
    (Bs4.find_all "p" article)
  = Spec.body_paragraphs article.
Proof.
  rewrite find_all_descendants. unfold Spec.body_paragraphs.
  induction (Spec.descendants article) as [|c l IH]; [done|]. simpl.
  assert (Hc : bool_decide (Bs4.find "strong" c = None)
               = negb (Spec.contains_strong c)).
  { unfold Spec.contains_strong.
    destruct (existsb _ _) eqn:He; simpl.
    - apply bool_decide_eq_false. rewrite find_none_iff. congruence.
    - apply bool_decide_eq_true. by rewrite find_none_iff. }
  destruct (Bs4.is_tag "p" c); simpl; [|exact IH].
  rewrite Hc. destruct (negb _); by rewrite IH.
Qed.

End Bs4Facts.

(** C7.  The content is the concatenation, with no separator, of the text
    of the paragraphs below the first [article] element, those that contain
    a [strong] element left out; without [article] element it is absent
    ([numpy.nan] in one script, [None] in the other), not the empty string;
    on the page of the specification it is "Content". *)
Theorem get_article_content_spec (soup : node) :
  Collect.get_article_content soup
    = match Spec.content_of soup with Some s => PStr s | None => PNaN end
  /\ Monitor.get_article_content soup
    = match Spec.content_of soup with Some s => PStr s | None => PNone end
  /\ (Spec.first_article soup = None ->
      Collect.get_article_content soup = PNaN
      /\ Monitor.get_article_content soup = PNone)
  /\ Collect.get_article_content Examples.article_page = PStr "Content"
  /\ Monitor.get_article_content Examples.article_page = PStr "Content".
Proof.
  assert (Hfirst : Bs4.find "article" soup = Spec.first_article soup).
  { unfold Spec.first_article. by rewrite find_head, find_all_descendants. }
  unfold Collect.get_article_content, Monitor.get_article_content,
    Spec.content_of.
  rewrite Hfirst. split; [|split; [|split; [|split]]].
  - destruct (Spec.first_article soup); [|done].
    by rewrite kept_paragraphs, join_empty.
  - destruct (Spec.first_article soup); [|done].
    by rewrite kept_paragraphs, join_empty.
  - by intros ->.
  - reflexivity.
  - reflexivity.
Qed.

(* ===================================================================== *)
(** * Link discovery *)
(* ===================================================================== *)

Section LinkFacts.

Variable http_get : string -> response.
Variables base_url keyword : string.

Lemma Collect_discursos_urls_ok anchors :
  Forall (fun a => is_Some (Bs4.get "href" a)) anchors ->
  Collect.discursos_urls base_url keyword anchors
  = Ret (List.map (Urllib.urljoin base_url)
           (List.filter (fun href => Py.contains keyword (Py.lower href))
              (omap (Bs4.get "href") anchors))).
Proof.
  induction 1 as [|a anchors [href Ha] _ IH]; [done|].
  cbn [Collect.discursos_urls omap list_omap]. rewrite Ha.
  cbn [method_lower mbind pyresult_bind Py.bind List.filter].
  rewrite IH. by destruct (Py.contains keyword (Py.lower href)).
Qed.

Lemma Monitor_discursos_urls_ok anchors :
  Forall (fun a => is_Some (Bs4.get "href" a)) anchors ->
  Monitor.discursos_urls base_url keyword anchors
  = Ret (List.map (String.append base_url)
           (List.filter (fun href => Py.contains keyword (Py.lower href))
              (omap (Bs4.get "href") anchors))).
Proof.
  induction 1 as [|a anchors [href Ha] _ IH]; [done|].
  cbn [Monitor.discursos_urls omap list_omap]. rewrite Ha.
  cbn [method_lower mbind pyresult_bind Py.bind List.filter].
  rewrite IH. by destruct (Py.contains keyword (Py.lower href)).
Qed.



End LinkFacts.







(* ===================================================================== *)
(** * The batch of records *)
(* ===================================================================== *)

Section GatherFacts.

Context {A : Type}.
Implicit Types (tasks : list A) (slots : list (option A)) (order : list nat).

Lemma complete_length tasks slots i :
  length (Asyncio.complete tasks slots i) = length slots.
Proof.
  unfold Asyncio.complete. destruct (tasks !! i); [|done].
  by rewrite length_insert.
Qed.

(** After the completions of [order], the slot of a task that completed
    holds its result, and the other slots are as before. *)
Lemma foldl_complete_lookup tasks order slots i :
  length slots = length tasks ->
  foldl (Asyncio.complete tasks) slots order !! i
  = if decide (i ∈ order) then Some <$> tasks !! i else slots !! i.
Proof.
  revert slots. induction order as [|j order IH]; intros slots Hlen.
  { cbn [foldl]. case_decide as Hin; [by apply elem_of_nil in Hin|done]. }
  cbn [foldl]. rewrite IH by (by rewrite complete_length).
  destruct (decide (i ∈ order)) as [Hin|Hnin].
  { by rewrite decide_True by (by right). }
  unfold Asyncio.complete. destruct (decide (i = j)) as [->|Hne].
  - rewrite decide_True by left.
    destruct (tasks !! j) as [r|] eqn:Hj.
    + apply list_lookup_insert_eq. rewrite Hlen.
      by apply lookup_lt_Some in Hj.
    + simpl. apply lookup_ge_None. rewrite Hlen.
      by apply lookup_ge_None in Hj.
  - rewrite decide_False by (intros [?|?]%elem_of_cons; done).
    destruct (tasks !! j); [|done]. by rewrite list_lookup_insert_ne.
Qed.

Lemma foldl_complete_length tasks order slots :
  length (foldl (Asyncio.complete tasks) slots order) = length slots.
Proof.
  revert slots. induction order as [|j order IH]; intros slots; [done|].
  cbn [foldl]. by rewrite IH, complete_length.
Qed.

(** Whatever the order of completion, [gather] returns the results in the
    order of the tasks. *)
Lemma gather_any_order tasks order :
  order ≡ₚ seq 0 (length tasks) -> Asyncio.gather tasks order = Some tasks.
Proof.
  intros Hperm. unfold Asyncio.gather. apply mapM_Some.
  apply Forall2_same_length_lookup. split.
  { by rewrite foldl_complete_length, length_replicate. }
  intros i x y Hx Hy. rewrite foldl_complete_lookup in Hx
    by (by rewrite length_replicate).
  rewrite decide_True in Hx.
  - rewrite Hy in Hx. simpl in Hx. by injection Hx as <-.
  - rewrite Hperm. apply elem_of_seq. apply lookup_lt_Some in Hy. lia.
Qed.

End GatherFacts.

Section BatchFacts.

Variable http_get : string -> response.

Abbreviation Collect_extracted :=
  (Spec.extracted (Collect.get_content http_get) Collect.get_title
     Collect.get_article_content Collect.get_date).
Abbreviation Monitor_extracted :=
  (Spec.extracted (Monitor.get_content http_get) Monitor.get_title
     Monitor.get_article_content Monitor.get_date).


Lemma create_dataframe_rows urls rows :
  Collect.create_dataframe http_get urls = Ret rows ->
  List.map url rows
    = List.filter (Spec.fetched (Collect.get_content http_get)) urls
  /\ Forall Collect_extracted rows.
Proof.
  revert rows. induction urls as [|u urls IH]; intros rows.
  { intros [= <-]. by split. }
  cbn [Collect.create_dataframe List.filter]. unfold Spec.fetched at 1.
  destruct (Collect.get_content http_get u) as [soup|] eqn:Hu; [|apply IH].
  destruct (Collect.get_date soup) as [date|] eqn:Hdate; [|done].
  destruct (Collect.create_dataframe http_get urls) as [data|]; [|done].
  cbn. intros [= <-]. destruct (IH data eq_refl) as [Hurls Hrows].
  split; [by rewrite <- Hurls|]. constructor; [|done].
  exists soup. cbn. auto.
Qed.

Lemma create_dataframe_returns urls :
  (forall u soup, In u urls -> Collect.get_content http_get u = Some soup ->
                  exists date, Collect.get_date soup = Ret date) ->
  exists rows, Collect.create_dataframe http_get urls = Ret rows.
Proof.
  induction urls as [|u urls IH]; intros Hdates; [by eexists|].
  destruct IH as [data Hdata].
  { intros u' soup Hin. apply Hdates. by right. }
  cbn [Collect.create_dataframe]. rewrite Hdata.
  destruct (Collect.get_content http_get u) as [soup|] eqn:Hu; [|by eexists].
  destruct (Hdates u soup (or_introl eq_refl) Hu) as [date ->]. by eexists.
Qed.


Lemma create_data_joined urls order :
  order ≡ₚ seq 0 (length urls) ->
  Monitor.create_data http_get urls order = Some (joined http_get urls).
Proof.
  intros Hperm. unfold Monitor.create_data.
  rewrite gather_any_order by (by rewrite length_map). done.
Qed.



End BatchFacts.




(* ===================================================================== *)
(** * Sorting functions that meet the contract of [sort_values] *)
(* ===================================================================== *)

Section Sorters.

#[local] Instance date_desc_dec : RelDecision date_desc.
Proof. intros a b. unfold date_desc. apply _. Defined.

#[local] Instance date_desc_total : Total date_desc.
Proof.
  intros a b. unfold date_desc, desc.
  destruct (date a) as [x| |], (date b) as [y| |]; auto.
  destruct (String.leb_total x y); auto.
Qed.

#[local] Instance date_desc_trans : Transitive date_desc.
Proof.
  intros a b c. unfold date_desc, desc.
  destruct (date a) as [x| |], (date b) as [y| |], (date c) as [z| |];
    try done.
  intros Hyx Hzy. apply Is_true_true.
  apply Is_true_true in Hyx, Hzy.
  by apply (transitivity (R:=String.le) Hzy Hyx).
Qed.

(** Merge sort. *)
Definition merge_sort_values : SortValues := {|
  sort_values := merge_sort date_desc;
  sort_values_perm := merge_sort_Permutation date_desc;
  sort_values_sorted := StronglySorted_merge_sort date_desc
|}.


End Sorters.

(* ===================================================================== *)
(** * The merge into the store and the driver *)
(* ===================================================================== *)

Section ListFacts.

Context {A : Type}.



Lemma filter_bool_nil (f : A -> bool) (l : list A) :
  (forall x, x ∈ l -> f x = false) -> List.filter f l = [].
Proof.
  induction l as [|x l IH]; intros Hf; [done|]. simpl.
  rewrite (Hf x) by left. apply IH. intros y Hy. apply Hf. by right.
Qed.

Lemma map_nil_inv {B} (f : A -> B) (l : list A) : List.map f l = [] -> l = [].
Proof. by destruct l. Qed.

End ListFacts.

Section CollectFacts.

Variable http_get : string -> response.
Context `{SortValues}.
Variable keyword : string.

Abbreviation check csv :=
  (Collect.check_csv_exists_and_fetch_missing http_get csv keyword
     Collect.base_url).
Abbreviation listing :=
  (Collect.get_discursos_urls http_get Collect.base_url keyword).
Abbreviation dataframe := (Collect.create_dataframe http_get).
Abbreviation main := (Collect.main http_get keyword).


Lemma main_delta csv u new_urls :
  check csv = Ret (u :: new_urls) ->
  main csv
  = new_data ← dataframe (u :: new_urls);
    Ret (Some match csv with
              | Some existing_data => sort_values (existing_data ++ new_data)
              | None => new_data
              end).
Proof.
  intros Hcheck. unfold Collect.main. rewrite Hcheck.
  cbn [mbind pyresult_bind Py.bind].
  destruct (dataframe (u :: new_urls)); cbn [mbind pyresult_bind Py.bind];
    [by destruct csv | done].
Qed.

Lemma main_no_delta csv :
  check csv = Ret [] ->
  main csv = discursos_urls ← listing; df ← dataframe discursos_urls; Ret (Some df).
Proof. intros Hcheck. unfold Collect.main. by rewrite Hcheck. Qed.

Lemma main_check_raises csv e : check csv = Raise e -> main csv = Raise e.
Proof. intros Hcheck. unfold Collect.main. by rewrite Hcheck. Qed.




End CollectFacts.

Section MonitorFacts.

Variable http_get : string -> response.

Abbreviation mlisting :=
  (Monitor.get_discursos_urls http_get Monitor.base_url Monitor.keyword).



(** What [gather] returns is the list of the results of the tasks. *)
Lemma gather_some {A} (tasks : list A) order l :
  Asyncio.gather tasks order = Some l -> l = tasks.
Proof.
  unfold Asyncio.gather. intros Hl%mapM_Some.
  pose proof (Forall2_length _ _ _ Hl) as Hlen.
  rewrite foldl_complete_length, length_replicate in Hlen.
  apply list_eq_same_length with (length tasks); [done..|].
  intros i y x _ Hy Hx.
  destruct (Forall2_lookup_r _ _ _ _ _ Hl Hy) as (slot & Hslot & Hid).
  simpl in Hid. subst slot.
  rewrite foldl_complete_lookup in Hslot by (by rewrite length_replicate).
  case_decide.
  - rewrite Hx in Hslot. simpl in Hslot. congruence.
  - apply lookup_replicate in Hslot as [? _]. done.
Qed.

Lemma create_data_some urls order batch :
  Monitor.create_data http_get urls order = Some batch ->
  batch = joined http_get urls.
Proof.
  unfold Monitor.create_data.
  destruct (Asyncio.gather _ order) as [soups|] eqn:Hg; [|done].
  apply gather_some in Hg as ->. by intros [= <-].
Qed.

(** The outcome of [main_async] once it has returned. *)
Lemma main_async_some csv order run :
  Monitor.main_async http_get csv order = Some run ->
  run = match mlisting with
        | Raise e => Raise e
        | Ret listed =>
            match delta csv listed with
            | [] => Ret csv
            | new_urls =>
                data ← joined http_get new_urls;
                Ret (Monitor.append_to_csv data csv)
            end
        end.
Proof.
  unfold Monitor.main_async. fold (mlisting).
  destruct mlisting as [listed|e]; [|by intros [= <-]].
  fold (delta csv listed). destruct (delta csv listed) as [|u new_urls].
  { by intros [= <-]. }
  destruct (Monitor.create_data _ _ order) as [batch|] eqn:Hb; [|done].
  apply create_data_some in Hb as ->. by intros [= <-].
Qed.

(** [main_async] returns when every request completes. *)
Lemma main_async_returns csv order listed :
  mlisting = Ret listed ->
  order ≡ₚ seq 0 (length (delta csv listed)) ->
  exists run, Monitor.main_async http_get csv order = Some run.
Proof.
  intros Hl Horder. unfold Monitor.main_async. fold (mlisting). rewrite Hl.
  fold (delta csv listed). destruct (delta csv listed) as [|u new_urls] eqn:Hd.
  { by eexists. }
  rewrite create_data_joined by done. by eexists.
Qed.





End MonitorFacts.

Section CollectTwice.

Variable http_get : string -> response.
Context `{SortValues}.
Variable keyword : string.

Abbreviation check' csv :=
  (Collect.check_csv_exists_and_fetch_missing http_get csv keyword
     Collect.base_url).
Abbreviation main' := (Collect.main http_get keyword).



End CollectTwice.




(** C4, as stated, fails on [collect_and_update_data.py]: when no new URL
    is found the store is written anew from what can be fetched, and when no
    request succeeds it is left empty. *)
Lemma collect_deletes_records : ~ Spec.collect_never_deletes.
Proof.
  intros Hkeep.
  specialize (Hkeep merge_sort_values Examples.site_down "milei"
                [Row PNaN PNaN PNaN "https://www.casarosada.gob.ar/old"]
                _ ltac:(left)).
  vm_compute in Hkeep. by apply elem_of_nil in Hkeep.
Qed.

(** C4, amended.  A record of the store is still in the store after a run of
    [monitor_website.py], and after a run of [collect_and_update_data.py]
    unless that run finds no new URL. *)
Theorem run_keeps_records `{SortValues}
    (http_get : string -> response) (keyword : string)
    (existing : list record) (r : record) :
  r ∈ existing ->
  (Collect.check_csv_exists_and_fetch_missing http_get (Some existing)
     keyword Collect.base_url <> Ret [] ->
   r ∈ Spec.rows (after_run (Some existing)
                    (Collect.main http_get keyword (Some existing))))
  /\ (forall order run,
       Monitor.main_async http_get (Some existing) order = Some run ->
       r ∈ Spec.rows (after_run (Some existing) run)).
Proof.
  intros Hr. split.
  - intros Hdelta.
    destruct (Collect.check_csv_exists_and_fetch_missing http_get
                (Some existing) keyword Collect.base_url)
      as [[|u new_urls]|e] eqn:Hcheck; [done| |].
    + rewrite (main_delta _ _ _ _ _ Hcheck).
      destruct (Collect.create_dataframe http_get (u :: new_urls));
        cbn [mbind pyresult_bind Py.bind after_run Spec.rows from_option];
        [|done].
      rewrite sort_values_perm. apply elem_of_app. by left.
    + by rewrite (main_check_raises _ _ _ _ Hcheck).
  - intros order run Hrun%main_async_some.
    destruct (Monitor.get_discursos_urls _ _ _) as [listed|e];
      [|by subst run].
    destruct (delta (Some existing) listed) as [|u new_urls];
      [by subst run|].
    destruct (joined http_get (u :: new_urls)); subst run; [|done].
    cbn. apply elem_of_app. by left.
Qed.

(** The site lists a new speech: the old record stays. *)
Lemma run_keeps_records_witness :
  let old := Row (PStr "Viejo") PNaN (PStr "2024-01-01")
               "https://www.casarosada.gob.ar/old" in
  old ∈ Spec.rows (after_run (Some [old])
                     (Collect.main Examples.site (H:=merge_sort_values)
                        "milei" (Some [old]))).
Proof.
  intros old.
  apply (run_keeps_records (H:=merge_sort_values) Examples.site "milei"
           [old] old).
  - left.
  - vm_compute. discriminate.
Defined.




(** C9, as stated, fails on [monitor_website.py]: with no new URL it leaves
    the store as it is. *)
Lemma monitor_does_not_resync : ~ Spec.monitor_resyncs_on_empty_delta.
Proof.
  intros Hresync.
  specialize (Hresync Examples.site
                [Row (PStr "Viejo") PNone PNone
                   "https://www.casarosada.gob.ar/informacion/discursos/milei-speech"]
                [] _ _ eq_refl eq_refl eq_refl).
  vm_compute in Hresync. discriminate Hresync.
Qed.

(** C9, amended.  With new URLs, both drivers build the records of exactly
    these URLs and merge them into the store.  With no new URL,
    [collect_and_update_data.py] fetches every listed URL again and writes the
    store anew, whereas [monitor_website.py] leaves the store as it is. *)
Theorem driver_paths `{SortValues}
    (http_get : string -> response) (keyword : string)
    (csv : option (list record)) :
  (forall u new_urls,
     Collect.check_csv_exists_and_fetch_missing http_get csv keyword
       Collect.base_url = Ret (u :: new_urls) ->
     Collect.main http_get keyword csv
     = new_data ← Collect.create_dataframe http_get (u :: new_urls);
       Ret (Some match csv with
                 | Some existing_data =>
                     sort_values (existing_data ++ new_data)
                 | None => new_data
                 end))
  /\ (Collect.check_csv_exists_and_fetch_missing http_get csv keyword
       Collect.base_url = Ret [] ->
     Collect.main http_get keyword csv
     = discursos_urls ← Collect.get_discursos_urls http_get
                           Collect.base_url keyword;
       df ← Collect.create_dataframe http_get discursos_urls;
       Ret (Some df))
  /\ (forall listed order,
       Monitor.get_discursos_urls http_get Monitor.base_url Monitor.keyword
         = Ret listed ->
       let new_urls :=
         List.filter
           (fun u => negb (bool_decide (u ∈ Monitor.read_csv csv))) listed in
       order ≡ₚ seq 0 (length new_urls) ->
       match new_urls with
       | [] => Monitor.main_async http_get csv order = Some (Ret csv)
       | _ :: _ =>
           exists batch,
             Monitor.create_data http_get new_urls order = Some batch
             /\ Monitor.main_async http_get csv order
                = Some (data ← batch; Ret (Monitor.append_to_csv data csv))
       end).
Proof.
  split; [|split].
  - intros u new_urls. apply main_delta.
  - apply main_no_delta.
  - intros listed order Hl new_urls Horder.
    unfold Monitor.main_async. rewrite Hl. fold new_urls.
    destruct new_urls as [|u new_urls'] eqn:Hnew; [done|].
    exists (joined http_get (u :: new_urls')).
    rewrite create_data_joined by done. done.
Qed.

(** The site lists a speech that the store holds already. *)
Lemma driver_paths_witness :
  let old := Row (PStr "Viejo") PNaN PNaN
               "https://www.casarosada.gob.ar/informacion/discursos/milei-speech" in
  Collect.main Examples.site (H:=merge_sort_values) "milei" (Some [old])
    = Ret (Some [Row (PStr "Discurso") (PStr "Texto") (PStr "2025-02-13")
                   "https://www.casarosada.gob.ar/informacion/discursos/milei-speech"])
  /\ Monitor.main_async Examples.site (Some [old]) [] = Some (Ret (Some [old])).
Proof.
  intros old.
  destruct (driver_paths (H:=merge_sort_values) Examples.site "milei"
              (Some [old])) as (_ & Hresync & Hmonitor).
  split.
  - rewrite Hresync by (vm_compute; reflexivity). vm_compute. reflexivity.
  - apply (Hmonitor
             ["https://www.casarosada.gob.ar/informacion/discursos/milei-speech"]
             []); [vm_compute; reflexivity | simpl; reflexivity].
Defined.


(* ===================================================================== *)
(** * Further properties of the extraction *)
(* ===================================================================== *)

(** X1.  The title is the text of the first [h2] element of the document,
    in document order, wherever it stands; without [h2] element it is absent
    ([numpy.nan] in one script, [None] in the other). *)
Theorem get_title_first_heading (soup : node) :
  Collect.get_title soup
    = match Notions.first_heading soup with
      | Some h2_tag => PStr (Bs4.text h2_tag)
      | None => PNaN
      end
  /\ Monitor.get_title soup
    = match Notions.first_heading soup with
      | Some h2_tag => PStr (Bs4.text h2_tag)
      | None => PNone
      end.
Proof.
  unfold Collect.get_title, Monitor.get_title, Notions.first_heading.
  by rewrite find_head, find_all_descendants.
Qed.

(** X2.  [get_content] of [collect_and_update_data.py] gives a document for
    the status 200 only; the one of [monitor_website.py] for every status
    below 400.  What the first script fetches, the second fetches too. *)
Theorem get_content_status
    (http_get : string -> response) (u : string) (soup : node) :
  (Collect.get_content http_get u = Some soup
   <-> http_get u = Response 200 soup)
  /\ (Monitor.get_content http_get u = Some soup
      <-> exists status_code,
            status_code < 400 /\ http_get u = Response status_code soup)
  /\ (Collect.get_content http_get u = Some soup ->
      Monitor.get_content http_get u = Some soup).
Proof.
  unfold Collect.get_content, Monitor.get_content, raises_for_status.
  destruct (http_get u) as [|code body].
  { split; [done|]. split; [|done]. split; [done|]. by intros (? & _ & ?). }
  split; [|split].
  - destruct (Z.eqb_spec code 200) as [->|Hne]; simpl.
    + split; congruence.
    + destruct (_ && _); simpl; split; try done; intros [= ? ?]; done.
  - destruct (Z.leb_spec 400 code); split; try done.
    + intros (c & Hc & [= <- <-]). lia.
    + intros [= <-]. exists code. split; [lia|done].
    + by intros (c & Hc & [= <- <-]).
  - destruct (Z.eqb_spec code 200) as [->|Hne]; simpl; [done|].
    by destruct (_ && _).
Qed.

Section DateOutcomes.

Import Datetime.

Lemma strptime_calendar_day s dt :
  strptime s = Ret dt -> Notions.calendar_day (year dt) (month dt) (day dt).
Proof.
  unfold strptime, datetime_date, Notions.calendar_day.
  repeat case_match; try done. intros [= <-]. simpl.
  repeat match goal with
         | H : _ && _ = true |- _ => apply andb_prop in H as [? ?]
         end.
  lia.
Qed.

End DateOutcomes.

(** X3.  [get_date] of [collect_and_update_data.py] raises exactly when the
    document has no [time] element, and then [AttributeError]; the one of
    [monitor_website.py] returns [None] exactly then, and raises nothing but
    [ValueError], on a document that has a [time] element. *)
Theorem get_date_failures (soup : node) :
  (forall e, Collect.get_date soup = Raise e
             <-> Bs4.find "time" soup = None /\ e = AttributeError)
  /\ (Monitor.get_date soup = Ret PNone <-> Bs4.find "time" soup = None)
  /\ (forall e, Monitor.get_date soup = Raise e ->
                e = ValueError /\ Bs4.find "time" soup <> None).
Proof.
  unfold Collect.get_date, Monitor.get_date.
  destruct (Bs4.find "time" soup) as [time_tag|];
    cbn [method_split mbind pyresult_bind Py.bind].
  - destruct (Datetime.strptime _) as [dt|e'] eqn:Hp;
      cbn [mbind pyresult_bind Py.bind].
    + naive_solver.
    + apply strptime_raises in Hp as ->. naive_solver.
  - naive_solver.
Qed.

(** X4.  With a [time] element the two scripts agree: either both return the
    same date, or the first returns [numpy.nan] where the second raises
    [ValueError]. *)
Theorem get_date_agreement (soup time_tag : node) :
  Bs4.find "time" soup = Some time_tag ->
  (exists s, Collect.get_date soup = Ret (PStr s)
             /\ Monitor.get_date soup = Ret (PStr s))
  \/ (Collect.get_date soup = Ret PNaN
      /\ Monitor.get_date soup = Raise ValueError).
Proof.
  intros Hfind. unfold Collect.get_date, Monitor.get_date. rewrite Hfind.
  cbn [method_split mbind pyresult_bind Py.bind].
  destruct (Datetime.strptime _) as [dt|e] eqn:Hp;
    cbn [mbind pyresult_bind Py.bind].
  - left. by eexists.
  - apply strptime_raises in Hp as ->. by right.
Qed.

(** The page of the test of the repository: the second case. *)
Lemma get_date_agreement_witness :
  (exists s,
     Collect.get_date (Examples.time_page "13 de febrero de 2025")
       = Ret (PStr s)
     /\ Monitor.get_date (Examples.time_page "13 de febrero de 2025")
       = Ret (PStr s))
  \/ (Collect.get_date (Examples.time_page "13 de febrero de 2025") = Ret PNaN
      /\ Monitor.get_date (Examples.time_page "13 de febrero de 2025")
         = Raise ValueError).
Proof.
  apply (get_date_agreement (Examples.time_page "13 de febrero de 2025")
           (Examples.elt "time" [NavigableString "13 de febrero de 2025"])).
  reflexivity.
Defined.

(** X5.  A date that [get_date] returns is a calendar day: the year, the
    month on two digits and the day on two digits of a day that exists, in
    the years 1 to 9999. *)
Theorem get_date_calendar_day (soup : node) (s : string) :
  Collect.get_date soup = Ret (PStr s) \/ Monitor.get_date soup = Ret (PStr s) ->
  exists y m d,
    Notions.calendar_day y m d
    /\ s = str_of_Z y +:+ "-" +:+ pad2 m +:+ "-" +:+ pad2 d.
Proof.
  unfold Collect.get_date, Monitor.get_date.
  destruct (Bs4.find "time" soup) as [time_tag|];
    cbn [method_split mbind pyresult_bind Py.bind];
    [|by intros [|]].
  destruct (Datetime.strptime _) as [dt|e] eqn:Hp;
    cbn [mbind pyresult_bind Py.bind].
  - intros Hs. assert (s = Datetime.strftime dt) as ->.
    { destruct Hs as [Hs|Hs]; by injection Hs. }
    exists (Datetime.year dt), (Datetime.month dt), (Datetime.day dt).
    split; [by eapply strptime_calendar_day | done].
  - intros [Hs|Hs]; [|done]. by destruct e.
Qed.

(** The last day of February of a leap year. *)
Lemma get_date_calendar_day_witness :
  exists y m d,
    Notions.calendar_day y m d
    /\ "2024-02-29" = str_of_Z y +:+ "-" +:+ pad2 m +:+ "-" +:+ pad2 d.
Proof.
  apply (get_date_calendar_day
           (Examples.time_page "jueves 29 de febrero de 2024") "2024-02-29").
  left. reflexivity.
Defined.

Section RawDateFacts.

Import Datetime.

(** Removing CR and LF leaves a beginning without them as it is. *)
Lemma strip_head h r :
  all_chars plain h = true ->
  Py.replace LF EmptyString (Py.replace CR EmptyString (h +:+ r))
  = h +:+ Py.replace LF EmptyString (Py.replace CR EmptyString r).
Proof.
  intros Hh. unfold Py.replace, CR, LF.
  rewrite !replace_from_head; [done|..];
    (eapply all_chars_impl; [|exact Hh]); intros c; by apply plain_differs.
Qed.

Lemma word_blank_plain w :
  Notions.word w -> all_chars plain (w +:+ " ") = true.
Proof.
  intros [_ Hw]. rewrite all_chars_app, (nonspace_plain w) by exact Hw. done.
Qed.

(** The words after the first one. *)
Lemma words_after_first w rest :
  Notions.word w ->
  Py.slice_from_1
    (Py.split (Py.replace LF EmptyString
                 (Py.replace CR EmptyString (w +:+ " " +:+ rest))))
  = Py.split (Py.replace LF EmptyString (Py.replace CR EmptyString rest)).
Proof.
  intros Hw. rewrite <- str_app_assoc.
  rewrite strip_head by (by apply word_blank_plain).
  rewrite str_app_assoc. destruct Hw as [Hne Hw].
  change (" " +:+ ?s) with (String " " s).
  by rewrite split_word_blank.
Qed.

Lemma replace_months_de s :
  replace_months ("de " +:+ s) = "de " +:+ replace_months s.
Proof. reflexivity. Qed.

Lemma strptime_letter s : strptime (String "d" s) = Raise ValueError.
Proof. reflexivity. Qed.

(** What is handed to [strptime] for [<dow> <day> de <month> de <year>],
    whatever the word for the month. *)
Lemma raw_date_normalized dow D M Y :
  Notions.word dow -> D <> EmptyString -> all_chars isdigit D = true ->
  Notions.word M -> Y <> EmptyString -> all_chars isdigit Y = true ->
  replace_months
    (Py.join " "
       (Py.slice_from_1
          (Py.split (Py.replace LF EmptyString
                       (Py.replace CR EmptyString
                          (Spec.raw_date dow D M Y))))))
  = D +:+ replace_months (" de " +:+ M +:+ " de ") +:+ Y.
Proof.
  intros Hdow HD1 HD2 [HM1 HM2] HY1 HY2.
  pose proof (digits_nonspace _ HD2) as HD3.
  pose proof (digits_nonspace _ HY2) as HY3.
  unfold Spec.raw_date. rewrite words_after_first by done.
  rewrite strip_newlines.
  2:{ rewrite !all_chars_app.
      rewrite (nonspace_plain D), (nonspace_plain M), (nonspace_plain Y)
        by done.
      reflexivity. }
  change (D +:+ " de " +:+ M +:+ " de " +:+ Y)
    with (D +:+ String " " ("de" +:+ String " "
            (M +:+ String " " ("de" +:+ String " " Y)))).
  rewrite !split_word_blank by done. rewrite split_word by done.
  cbn [Py.join].
  transitivity (replace_months (D +:+ (" de " +:+ M +:+ " de ") +:+ Y)).
  { f_equal. f_equal. rewrite !str_app_assoc. reflexivity. }
  by apply replace_months_frame.
Qed.

(** A month written as a number from 1 to 12, on one or two digits. *)
Lemma numeric_month_facts m M :
  1 <= m <= 12 -> M = str_of_Z m \/ M = pad2 m ->
  Notions.word M
  /\ replace_months (" de " +:+ M +:+ " de ") = " de " +:+ M +:+ " de "
  /\ Py.int M = Some m
  /\ (exists c r, M = String c r /\ isspace c = false)
  /\ forall r, exists junk,
       rmatch re_m (M +:+ String " " r) = (M, String " " r) :: junk.
Proof.
  intros Hm HM.
  pose proof (in_Zrange 1 12 m ltac:(lia) ltac:(lia)) as Hin.
  vm_compute in Hin.
  repeat (destruct Hin as [<-|Hin]; [
    destruct HM as [-> | ->];
    (split; [split; [discriminate | reflexivity]|]);
    (split; [reflexivity|]); (split; [reflexivity|]);
    (split; [eexists _, _; split; reflexivity|]);
    intros r; eexists; vm_compute; reflexivity
  |]).
  destruct Hin.
Qed.

End RawDateFacts.

(** X6.  The first word of the text of the [time] element is dropped
    unread: two documents whose dates differ in their first word only get the
    same result, in both scripts. *)
Theorem get_date_ignores_first_word
    (w1 w2 rest : string) (soup1 soup2 time1 time2 : node) :
  Notions.word w1 -> Notions.word w2 ->
  Bs4.find "time" soup1 = Some time1 ->
  Bs4.text time1 = w1 +:+ " " +:+ rest ->
  Bs4.find "time" soup2 = Some time2 ->
  Bs4.text time2 = w2 +:+ " " +:+ rest ->
  Collect.get_date soup1 = Collect.get_date soup2
  /\ Monitor.get_date soup1 = Monitor.get_date soup2.
Proof.
  intros Hw1 Hw2 Hf1 Ht1 Hf2 Ht2.
  unfold Collect.get_date, Monitor.get_date.
  rewrite Hf1, Hf2, Ht1, Ht2.
  cbn [method_split mbind pyresult_bind Py.bind].
  by rewrite !words_after_first.
Qed.

(** A day of the week, or any other word. *)
Lemma get_date_ignores_first_word_witness :
  Collect.get_date (Examples.time_page "lunes 13 de febrero de 2025")
    = Collect.get_date (Examples.time_page "xyz 13 de febrero de 2025")
  /\ Monitor.get_date (Examples.time_page "lunes 13 de febrero de 2025")
    = Monitor.get_date (Examples.time_page "xyz 13 de febrero de 2025").
Proof.
  apply (get_date_ignores_first_word "lunes" "xyz" "13 de febrero de 2025"
           _ _ (Examples.elt "time" [NavigableString "lunes 13 de febrero de 2025"])
           (Examples.elt "time" [NavigableString "xyz 13 de febrero de 2025"]));
    try reflexivity; split; (discriminate || reflexivity).
Defined.

(** X7.  A date without the day of the week, [<day> de ...], is not
    parsed: its day is dropped as if it were the day of the week, and the
    first script returns [numpy.nan] where the second raises [ValueError]. *)
Theorem get_date_without_day_of_week
    (D rest : string) (soup time_tag : node) :
  Notions.word D ->
  Bs4.find "time" soup = Some time_tag ->
  Bs4.text time_tag = D +:+ " de " +:+ rest ->
  Collect.get_date soup = Ret PNaN
  /\ Monitor.get_date soup = Raise ValueError.
Proof.
  intros HD Hfind Htext.
  unfold Collect.get_date, Monitor.get_date. rewrite Hfind, Htext.
  cbn [method_split mbind pyresult_bind Py.bind].
  change (D +:+ " de " +:+ rest) with (D +:+ " " +:+ "de " +:+ rest).
  rewrite words_after_first by done.
  rewrite (strip_head "de ") by reflexivity.
  change ("de " +:+ ?s) with ("de" +:+ String " " s).
  rewrite split_word_blank by done.
  destruct (Py.split _) as [|x l]; [done|].
  change (Py.join " " ("de" :: x :: l)) with ("de " +:+ Py.join " " (x :: l)).
  rewrite replace_months_de.
  change ("de " +:+ ?s) with (String "d" (String "e" (String " " s))).
  by rewrite strptime_letter.
Qed.

(** The date of the test of the repository. *)
Lemma get_date_without_day_of_week_witness :
  Collect.get_date (Examples.time_page "13 de febrero de 2025") = Ret PNaN
  /\ Monitor.get_date (Examples.time_page "13 de febrero de 2025")
     = Raise ValueError.
Proof.
  apply (get_date_without_day_of_week "13" "febrero de 2025"
           (Examples.time_page "13 de febrero de 2025")
           (Examples.elt "time" [NavigableString "13 de febrero de 2025"]));
    [split; [discriminate | reflexivity] | reflexivity | reflexivity].
Defined.

(** X8.  The month may be written as its number already, on one or two
    digits: the replacement of the month names leaves it as it is and the
    date is normalized as with the name, in both scripts. *)
Theorem get_date_numeric_month
    (dow D M : string) (d m y : Z) (soup time_tag : node) :
  Notions.word dow ->
  1 <= m <= 12 -> M = str_of_Z m \/ M = pad2 m ->
  1000 <= y <= 9999 ->
  1 <= d <= Datetime.days_in_month y m ->
  D = str_of_Z d \/ D = pad2 d ->
  Bs4.find "time" soup = Some time_tag ->
  Bs4.text time_tag = Spec.raw_date dow D M (pad4 y) ->
  Collect.get_date soup = Ret (PStr (Spec.iso_date y m d))
  /\ Monitor.get_date soup = Ret (PStr (Spec.iso_date y m d)).
Proof.
  intros Hdow Hm HM Hy Hd HD Hfind Htext.
  pose proof (days_in_month_le_31 y m) as H31.
  destruct (day_facts d D ltac:(lia) HD) as (HD1 & HD2 & Hint_d & Hre_d).
  destruct (numeric_month_facts m M Hm HM)
    as (HMw & Hrep & Hint_m & Hc_m & Hre_m).
  destruct (year_facts _ Hy) as (Hstr & HY & Hint_y & Hre_y).
  assert (Hp : Datetime.strptime (D +:+ " de " +:+ M +:+ " de " +:+ pad4 y)
               = Ret (Datetime.Date y m d)).
  { unfold Datetime.strptime. rewrite format_match_fields; try done.
    - rewrite Hint_y, Hint_m, Hint_d. unfold Datetime.datetime_date.
      replace (1 <=? y) with true by lia. replace (y <=? 9999) with true by lia.
      replace (1 <=? m) with true by lia. replace (m <=? 12) with true by lia.
      replace (1 <=? d) with true by lia.
      replace (d <=? Datetime.days_in_month y m) with true by lia.
      reflexivity.
    - eexists _, _. split; [reflexivity|].
      apply isdigit_nonspace, digit_char_isdigit. }
  assert (Hfmt : Datetime.strftime (Datetime.Date y m d) = Spec.iso_date y m d).
  { unfold Datetime.strftime, Spec.iso_date. simpl. by rewrite Hstr. }
  unfold Collect.get_date, Monitor.get_date.
  rewrite Hfind, Htext. cbn [method_split mbind pyresult_bind Py.bind].
  rewrite raw_date_normalized, Hrep by done.
  rewrite !str_app_assoc. change (" de " +:+ ?s) with (" de " +:+ s).
  rewrite Hp. cbn [mbind pyresult_bind Py.bind mret pyresult_ret].
  by rewrite Hfmt.
Qed.

(** "lunes 13 de 2 de 2025" *)
Lemma get_date_numeric_month_witness :
  Collect.get_date (Examples.time_page "lunes 13 de 2 de 2025")
    = Ret (PStr "2025-02-13")
  /\ Monitor.get_date (Examples.time_page "lunes 13 de 2 de 2025")
    = Ret (PStr "2025-02-13").
Proof.
  apply (get_date_numeric_month "lunes" "13" "2" 13 2 2025
           (Examples.time_page "lunes 13 de 2 de 2025")
           (Examples.elt "time" [NavigableString "lunes 13 de 2 de 2025"]));
    [ split; [discriminate | reflexivity] | lia | left; reflexivity | lia
    | change (Datetime.days_in_month 2025 2) with 28; lia
    | left; reflexivity | reflexivity | reflexivity ].
Defined.

(** X9.  The month names are replaced in lower case only: with the name
    capitalized, as in "13 de Febrero de 2025", the date is not parsed,
    whatever the day and the year. *)
Theorem get_date_capitalized_month
    (dow D name Y : string) (d m : Z) (soup time_tag : node) :
  Notions.word dow ->
  Spec.month_of_name name = Some m ->
  1 <= d <= 31 -> D = str_of_Z d \/ D = pad2 d ->
  Y <> EmptyString -> all_chars isdigit Y = true ->
  Bs4.find "time" soup = Some time_tag ->
  Bs4.text time_tag = Spec.raw_date dow D (Notions.capitalize name) Y ->
  Collect.get_date soup = Ret PNaN
  /\ Monitor.get_date soup = Raise ValueError.
Proof.
  intros Hdow Hname Hd HD HY1 HY2 Hfind Htext.
  destruct (day_facts d D Hd HD) as (HD1 & HD2 & _).
  unfold Collect.get_date, Monitor.get_date.
  rewrite Hfind, Htext. cbn [method_split mbind pyresult_bind Py.bind].
  assert (Hfail : Datetime.strptime
                    (D +:+ replace_months
                             (" de " +:+ Notions.capitalize name +:+ " de ")
                       +:+ Y) = Raise ValueError
                  /\ Notions.word (Notions.capitalize name)).
  { clear Htext Hfind HD1 HD2 HY1 HY2.
    pose proof (in_Zrange 1 31 d ltac:(lia) ltac:(lia)) as Hin.
    vm_compute in Hin.
    unfold Spec.month_of_name, month_map in Hname.
    cbn [Spec.lookup_month] in Hname.
    repeat (match type of Hname with
            | context [String.eqb ?n name] =>
                destruct (String.eqb_spec n name) as [<-|_]
            end; [
      clear Hname;
      repeat (destruct Hin as [<-|Hin]; [
        destruct HD as [-> | ->];
        (split; [reflexivity | split; [discriminate | reflexivity]])
      |]);
      destruct Hin
    |]).
    discriminate Hname. }
  destruct Hfail as [Hfail Hcap].
  rewrite raw_date_normalized by done.
  rewrite Hfail. done.
Qed.

(** "lunes 13 de Febrero de 2025" *)
Lemma get_date_capitalized_month_witness :
  Collect.get_date (Examples.time_page "lunes 13 de Febrero de 2025")
    = Ret PNaN
  /\ Monitor.get_date (Examples.time_page "lunes 13 de Febrero de 2025")
    = Raise ValueError.
Proof.
  apply (get_date_capitalized_month "lunes" "13" "febrero" "2025" 13 2
           (Examples.time_page "lunes 13 de Febrero de 2025")
           (Examples.elt "time"
              [NavigableString "lunes 13 de Febrero de 2025"]));
    [ split; [discriminate | reflexivity] | reflexivity | lia
    | left; reflexivity | discriminate | reflexivity | reflexivity
    | reflexivity ].
Defined.

(* ===================================================================== *)
(** * Further properties of link discovery and of the drivers *)
(* ===================================================================== *)

Section KeywordFacts.

Lemma lower_char_not_upper c : Notions.isupper (lower_char c) = false.
Proof. destruct c as [[] [] [] [] [] [] [] []]; reflexivity. Qed.

Lemma occurs_lower c s :
  occurs c (Py.lower s) = true -> Notions.isupper c = false.
Proof.
  induction s as [|a s IH]; [done|]. simpl.
  intros [Ha|Hs]%orb_prop; [|by apply IH].
  apply Ascii.eqb_eq in Ha as <-. apply lower_char_not_upper.
Qed.

Lemma prefix_occurs c sub s :
  String.prefix sub s = true -> occurs c sub = true -> occurs c s = true.
Proof.
  revert s. induction sub as [|a sub IH]; intros s; [done|].
  destruct s as [|b s]; [done|]. simpl.
  destruct (ascii_dec a b) as [->|]; [|done].
  intros Hpre [Hb|Hsub]%orb_prop.
  - by rewrite Hb.
  - rewrite (IH s Hpre Hsub). apply orb_true_r.
Qed.

Lemma contains_occurs c sub s :
  Py.contains sub s = true -> occurs c sub = true -> occurs c s = true.
Proof.
  intros Hc Hsub. induction s as [|b s IH].
  - simpl in Hc. rewrite orb_false_r in Hc. by eapply prefix_occurs.
  - cbn [Py.contains] in Hc. apply orb_prop in Hc as [Hpre|Hrest].
    + by eapply prefix_occurs.
    + simpl. rewrite (IH Hrest). apply orb_true_r.
Qed.

(** A keyword with an upper-case letter is in no lower-case href. *)
Lemma upper_keyword_no_match c keyword href :
  occurs c keyword = true -> Notions.isupper c = true ->
  Py.contains keyword (Py.lower href) = false.
Proof.
  intros Hc Hup. destruct (Py.contains keyword (Py.lower href)) eqn:Hk; [|done].
  pose proof (occurs_lower _ _ (contains_occurs _ _ _ Hk Hc)). congruence.
Qed.

End KeywordFacts.

(** X10.  The keyword is looked for in the lower-case form of the href but
    is not itself put in lower case: with an upper-case letter in the keyword
    no link is found, in both scripts. *)
Theorem uppercase_keyword_finds_nothing
    (http_get : string -> response) (base_url keyword : string)
    (status_code : Z) (soup : node) (c : ascii) :
  http_get base_url = Response status_code soup ->
  raises_for_status status_code = false ->
  Forall (fun a => is_Some (Bs4.get "href" a)) (Spec.anchors soup) ->
  occurs c keyword = true -> Notions.isupper c = true ->
  Collect.get_discursos_urls http_get base_url keyword = Ret []
  /\ Monitor.get_discursos_urls http_get base_url keyword = Ret [].
Proof.
  intros Hget Hstatus Hhref Hc Hup.
  unfold Collect.get_discursos_urls, Monitor.get_discursos_urls.
  rewrite Hget, Hstatus. fold (Spec.anchors soup).
  rewrite Collect_discursos_urls_ok, Monitor_discursos_urls_ok by done.
  rewrite filter_bool_nil; [done|].
  intros href _. by eapply upper_keyword_no_match.
Qed.

(** The keyword "Milei" on a page with the href "Milei-speech". *)
Lemma uppercase_keyword_finds_nothing_witness :
  Collect.get_discursos_urls
      (Examples.index_net [Examples.anchor "Milei-speech"])
      Collect.base_url "Milei" = Ret []
  /\ Monitor.get_discursos_urls
      (Examples.index_net [Examples.anchor "Milei-speech"])
      Collect.base_url "Milei" = Ret [].
Proof.
  apply (uppercase_keyword_finds_nothing
           (Examples.index_net [Examples.anchor "Milei-speech"])
           Collect.base_url "Milei" 200
           (Examples.index_page [Examples.item [Examples.anchor "Milei-speech"]])
           "M");
    [ reflexivity | reflexivity | | reflexivity | reflexivity ].
  repeat constructor. exists "Milei-speech". reflexivity.
Defined.

Section IndexFacts.

Variable http_get : string -> response.

(** Both [get_discursos_urls] catch [RequestException] and return the empty
    list. *)
Lemma unreachable_lists_nothing base_url keyword :
  Notions.unreachable http_get base_url ->
  Collect.get_discursos_urls http_get base_url keyword = Ret []
  /\ Monitor.get_discursos_urls http_get base_url keyword = Ret [].
Proof.
  unfold Collect.get_discursos_urls, Monitor.get_discursos_urls.
  intros [->|(status_code & body & -> & ->)]; done.
Qed.


End IndexFacts.

(** X11.  When the index page cannot be read, [collect_and_update_data.py]
    writes an empty table over the store, whatever it held, and
    [monitor_website.py] leaves the store as it is. *)
Theorem unreachable_index_outcomes `{SortValues}
    (http_get : string -> response) (keyword : string)
    (csv : option (list record)) (order : list nat) :
  Notions.unreachable http_get Collect.base_url ->
  Collect.main http_get keyword csv = Ret (Some [])
  /\ Monitor.main_async http_get csv order = Some (Ret csv).
Proof.
  intros Hdown.
  destruct (unreachable_lists_nothing http_get Collect.base_url keyword Hdown)
    as [Hc _].
  destruct (unreachable_lists_nothing http_get Monitor.base_url
              Monitor.keyword Hdown) as [_ Hm].
  split.
  - unfold Collect.main, Collect.check_csv_exists_and_fetch_missing.
    rewrite Hc. cbn [mbind mret pyresult_bind pyresult_ret Py.bind].
    rewrite list_to_set_nil, difference_disjoint_L by set_solver.
    by rewrite elements_empty.
  - unfold Monitor.main_async. by rewrite Hm.
Qed.

(** A store of one record, and no request succeeds. *)
Lemma unreachable_index_outcomes_witness :
  let csv := Some [Row PNaN PNaN PNaN "https://www.casarosada.gob.ar/old"] in
  Collect.main Examples.site_down (H := merge_sort_values) "milei" csv
    = Ret (Some [])
  /\ Monitor.main_async Examples.site_down csv [] = Some (Ret csv).
Proof.
  apply (unreachable_index_outcomes (H := merge_sort_values)
           Examples.site_down "milei").
  by left.
Defined.

(** X12.  The URLs that [check_csv_exists_and_fetch_missing] returns are the
    listed URLs that the store does not hold, each of them once, however
    often the index page lists it. *)
Theorem new_urls_are_the_delta
    (http_get : string -> response) (keyword base_url : string)
    (csv : option (list record)) (new_urls : list string) :
  Collect.check_csv_exists_and_fetch_missing http_get csv keyword base_url
    = Ret new_urls ->
  exists listed,
    Collect.get_discursos_urls http_get base_url keyword = Ret listed
    /\ NoDup new_urls
    /\ forall u, u ∈ new_urls
                 <-> u ∈ listed /\ u ∉ List.map url (Spec.rows csv).
Proof.
  unfold Collect.check_csv_exists_and_fetch_missing.
  destruct (Collect.get_discursos_urls http_get base_url keyword)
    as [listed|]; [|done].
  cbn. intros [= <-].
  exists listed. split; [done|]. split; [apply NoDup_elements|].
  intros u. rewrite elem_of_elements, elem_of_difference,
    !elem_of_list_to_set.
  by destruct csv.
Qed.

(** The index page lists one href twice and the store does not exist. *)
Lemma new_urls_are_the_delta_witness :
  exists listed,
    Collect.get_discursos_urls Examples.site_twice Collect.base_url "milei"
      = Ret listed
    /\ NoDup ["https://www.casarosada.gob.ar/informacion/discursos/milei-speech"]
    /\ forall u,
         u ∈ ["https://www.casarosada.gob.ar/informacion/discursos/milei-speech"]
         <-> u ∈ listed /\ u ∉ List.map url (Spec.rows None).
Proof.
  apply (new_urls_are_the_delta Examples.site_twice "milei" Collect.base_url
           None).
  vm_compute. reflexivity.
Defined.




(** X15.  A run of [collect_and_update_data.py] that merges writes the URLs
    of the store and, once each, the new URLs that could be fetched: the
    number of records grows by the number of those. *)
Theorem merge_url_column `{SortValues}
    (http_get : string -> response) (keyword : string)
    (existing : list record) (new_urls : list string)
    (written : list record) :
  Collect.check_csv_exists_and_fetch_missing http_get (Some existing) keyword
    Collect.base_url = Ret new_urls ->
  new_urls <> [] ->
  Collect.main http_get keyword (Some existing) = Ret (Some written) ->
  List.map url written
    ≡ₚ List.map url existing
       ++ List.filter (Spec.fetched (Collect.get_content http_get)) new_urls
  /\ length written
     = (length existing
        + length (List.filter (Spec.fetched (Collect.get_content http_get))
                    new_urls))%nat.
Proof.
  intros Hcheck Hne Hmain. destruct new_urls as [|u new_urls]; [done|].
  rewrite (main_delta _ _ _ _ _ Hcheck) in Hmain.
  destruct (Collect.create_dataframe http_get (u :: new_urls))
    as [new_data|e] eqn:Hdata; [|done].
  cbn in Hmain. injection Hmain as <-.
  destruct (create_dataframe_rows _ _ _ Hdata) as [Hurls _].
  assert (List.map url (sort_values (existing ++ new_data))
            ≡ₚ List.map url existing
               ++ List.filter (Spec.fetched (Collect.get_content http_get))
                    (u :: new_urls)) as Hperm.
  { rewrite (Permutation_map url (sort_values_perm _)), map_app.
    by rewrite Hurls. }
  split; [done|].
  apply Permutation_length in Hperm.
  by rewrite length_map, length_app, length_map in Hperm.
Qed.

(** The store holds one record and the index page lists one other URL. *)
Lemma merge_url_column_witness :
  let existing := [Row PNaN PNaN PNaN "https://www.casarosada.gob.ar/old"] in
  let new_urls :=
    ["https://www.casarosada.gob.ar/informacion/discursos/milei-speech"] in
  let written :=
    [Row (PStr "Discurso") (PStr "Texto") (PStr "2025-02-13")
       "https://www.casarosada.gob.ar/informacion/discursos/milei-speech";
     Row PNaN PNaN PNaN "https://www.casarosada.gob.ar/old"] in
  List.map url written
    ≡ₚ List.map url existing
       ++ List.filter (Spec.fetched (Collect.get_content Examples.site))
            new_urls
  /\ length written
     = (length existing
        + length (List.filter
                    (Spec.fetched (Collect.get_content Examples.site))
                    new_urls))%nat.
Proof.
  apply (merge_url_column (H := merge_sort_values) Examples.site "milei");
    [vm_compute; reflexivity | discriminate | vm_compute; reflexivity].
Defined.

(** X16.  A run of [collect_and_update_data.py] that finds no new URL writes
    one record for every occurrence, in the order of the index page, of a
    listed URL that could be fetched: what the store held before plays no
    part. *)
Theorem resync_url_column `{SortValues}
    (http_get : string -> response) (keyword : string)
    (csv : option (list record)) (listed : list string)
    (written : list record) :
  Collect.check_csv_exists_and_fetch_missing http_get csv keyword
    Collect.base_url = Ret [] ->
  Collect.get_discursos_urls http_get Collect.base_url keyword = Ret listed ->
  Collect.main http_get keyword csv = Ret (Some written) ->
  List.map url written
    = List.filter (Spec.fetched (Collect.get_content http_get)) listed
  /\ Forall (Spec.extracted (Collect.get_content http_get) Collect.get_title
               Collect.get_article_content Collect.get_date) written.
Proof.
  intros Hcheck Hl Hmain.
  rewrite (main_no_delta _ _ _ Hcheck), Hl in Hmain.
  cbn [mbind pyresult_bind Py.bind] in Hmain.
  destruct (Collect.create_dataframe http_get listed) as [df|e] eqn:Hdata;
    [|done].
  injection Hmain as <-. by apply create_dataframe_rows.
Qed.

(** The index page lists twice the one URL that the store holds. *)
Lemma resync_url_column_witness :
  let u := "https://www.casarosada.gob.ar/informacion/discursos/milei-speech" in
  let r := Row (PStr "Discurso") (PStr "Texto") (PStr "2025-02-13") u in
  List.map url [r; r]
    = List.filter (Spec.fetched (Collect.get_content Examples.site_twice))
        [u; u]
  /\ Forall (Spec.extracted (Collect.get_content Examples.site_twice)
               Collect.get_title Collect.get_article_content Collect.get_date)
       [r; r].
Proof.
  apply (resync_url_column (H := merge_sort_values) Examples.site_twice
           "milei"
           (Some [Row PNaN PNaN PNaN
                    "https://www.casarosada.gob.ar/informacion/discursos/milei-speech"]));
    vm_compute; reflexivity.
Defined.

(* ===================================================================== *)
(** * The URLs of the two scripts *)
(* ===================================================================== *)

Section UrlFacts.

Lemma path_char_facts c :
  Notions.path_char c = true ->
  Urllib.c0_control_or_space c = false
  /\ negb (Urllib.unsafe_byte c) = true
  /\ differs ":" c = true /\ differs "#" c = true /\ differs "?" c = true
  /\ differs ";" c = true /\ differs "." c = true.
Proof.
  destruct c as [[] [] [] [] [] [] [] []]; vm_compute; intros;
    repeat split; congruence.
Qed.

Lemma slug_char_path c : Notions.slug_char c = true -> Notions.path_char c = true.
Proof. unfold Notions.path_char. by intros ->. Qed.

Lemma slug_char_no_slash c : Notions.slug_char c = true -> differs "/" c = true.
Proof. destruct c as [[] [] [] [] [] [] [] []]; vm_compute; congruence. Qed.

Lemma remove_chars_id p s :
  all_chars (fun c => negb (p c)) s = true -> Urllib.remove_chars p s = s.
Proof.
  induction s as [|c s IH]; [done|]. simpl.
  intros [Hc Hs]%andb_prop. apply negb_true_iff in Hc. rewrite Hc.
  by rewrite IH.
Qed.

Lemma find_char_none c0 s :
  all_chars (differs c0) s = true -> Urllib.find_char c0 s = None.
Proof.
  induction s as [|c s IH]; [done|]. simpl. unfold differs at 1.
  intros [Hc Hs]%andb_prop. apply negb_true_iff in Hc. rewrite Hc.
  by rewrite IH.
Qed.

Lemma cut_none c0 s :
  all_chars (differs c0) s = true -> Urllib.cut c0 s = (s, EmptyString).
Proof. intros Hs. unfold Urllib.cut. by rewrite find_char_none. Qed.

Lemma contains_char_none c0 s :
  all_chars (differs c0) s = true ->
  Py.contains (String c0 EmptyString) s = false.
Proof.
  induction s as [|c s IH]; [done|]. cbn [all_chars Py.contains String.prefix].
  unfold differs at 1. intros [Hc Hs]%andb_prop.
  apply negb_true_iff, Ascii.eqb_neq in Hc.
  destruct (ascii_dec c0 c) as [->|]; [done|]. by rewrite IH.
Qed.

Lemma split_on_none c0 cur s :
  all_chars (differs c0) s = true ->
  Urllib.split_on c0 cur s = [cur +:+ s].
Proof.
  revert cur. induction s as [|c s IH]; intros cur.
  { by rewrite str_app_nil_r. }
  simpl. unfold differs at 1. intros [Hc Hs]%andb_prop.
  apply negb_true_iff in Hc. rewrite Hc, IH by done.
  by rewrite str_app_assoc.
Qed.

Lemma split_on_cons c0 cur s :
  exists seg segs, Urllib.split_on c0 cur s = seg :: segs.
Proof.
  revert cur. induction s as [|c s IH]; intros cur; [by eexists _, _|].
  simpl. destruct (Ascii.eqb c c0); [by eexists _, _|apply IH].
Qed.

Lemma join_split_on c0 cur s :
  Py.join (String c0 EmptyString) (Urllib.split_on c0 cur s) = cur +:+ s.
Proof.
  revert cur. induction s as [|c s IH]; intros cur.
  { by rewrite str_app_nil_r. }
  cbn [Urllib.split_on]. destruct (Ascii.eqb_spec c c0) as [->|].
  - destruct (split_on_cons c0 EmptyString s) as (seg & segs & Hsp).
    specialize (IH EmptyString). rewrite Hsp in *.
    transitivity (cur +:+ String c0 EmptyString
                    +:+ Py.join (String c0 EmptyString) (seg :: segs));
      [reflexivity|].
    by rewrite IH.
  - rewrite IH. by rewrite str_app_assoc.
Qed.

Lemma split_on_Forall p c0 cur s :
  all_chars p cur = true -> all_chars p s = true ->
  Forall (fun seg => all_chars p seg = true) (Urllib.split_on c0 cur s).
Proof.
  revert cur. induction s as [|c s IH]; intros cur Hcur.
  { intros _. by constructor. }
  cbn [all_chars Urllib.split_on]. intros [Hc Hs]%andb_prop.
  destruct (Ascii.eqb c c0).
  - constructor; [done|]. by apply IH.
  - apply IH; [|done]. rewrite all_chars_app. simpl. by rewrite Hcur, Hc.
Qed.

Lemma resolve_plain resolved segments :
  Forall (fun seg => all_chars (differs ".") seg = true) segments ->
  Urllib.resolve resolved segments = List.rev resolved ++ segments.
Proof.
  revert resolved. induction segments as [|seg segments IH]; intros resolved.
  { intros _. simpl. by rewrite app_nil_r. }
  intros [Hseg Hsegs]%Forall_cons. cbn [Urllib.resolve].
  destruct (String.eqb_spec seg "..") as [->|_]; [done|].
  destruct (String.eqb_spec seg ".") as [->|_]; [done|].
  rewrite IH by done. simpl. by rewrite <- app_assoc.
Qed.

Lemma urlparse_path (c : ascii) (s scheme : string) :
  all_chars Notions.path_char (String c s) = true ->
  String.prefix "//" (String c s) = false ->
  Urllib.urlparse (String c s) scheme
  = Urllib.Parsed scheme EmptyString (String c s) EmptyString EmptyString
      EmptyString.
Proof.
  intros Hpath Hnet.
  assert (forall c0, In c0 [":"; "#"; "?"; ";"]%char ->
                     all_chars (differs c0) (String c s) = true) as Hdiff.
  { intros c0 Hc0. apply (all_chars_impl Notions.path_char); [|done].
    intros a Ha. destruct (path_char_facts a Ha) as (_&_&?&?&?&?&_).
    simpl in Hc0. naive_solver. }
  assert (Urllib.urlsplit (String c s) scheme
          = Urllib.Parsed scheme EmptyString (String c s) EmptyString
              EmptyString EmptyString) as Hsplit.
  { unfold Urllib.urlsplit. cbn [Urllib.lstrip].
    cbn [all_chars] in Hpath. apply andb_prop in Hpath as [Hc Hs].
    rewrite (proj1 (path_char_facts c Hc)).
    rewrite remove_chars_id.
    2:{ apply (all_chars_impl Notions.path_char); [|by cbn [all_chars]; rewrite Hc, Hs].
        intros a Ha. by destruct (path_char_facts a Ha) as (_&?&_). }
    rewrite find_char_none by (apply Hdiff; simpl; auto).
    cbv beta iota zeta. rewrite Hnet.
    rewrite cut_none by (apply Hdiff; simpl; auto).
    by rewrite cut_none by (apply Hdiff; simpl; auto). }
  unfold Urllib.urlparse. rewrite Hsplit. cbn [Urllib.path Urllib.scheme].
  rewrite contains_char_none by (apply Hdiff; simpl; auto).
  by rewrite andb_false_r.
Qed.

Lemma base_url_parsed :
  Urllib.urlparse Collect.base_url EmptyString
  = Urllib.Parsed "https" "www.casarosada.gob.ar" "/informacion/discursos/"
      EmptyString EmptyString EmptyString.
Proof. vm_compute. reflexivity. Qed.

Lemma plain_segment seg :
  all_chars (differs ".") seg = true -> seg <> ".." /\ seg <> ".".
Proof. split; intros ->; discriminate. Qed.

Lemma Forall_last_nonempty {A} (P : A -> Prop) (l : list A) (d : A) :
  Forall P l -> l <> [] -> P (List.last l d).
Proof.
  induction 1 as [|x l Hx Hl IH]; [done|]. intros _.
  destruct l as [|y l]; [done|]. by apply IH.
Qed.

Lemma last_segment_plain c0 cur s :
  all_chars (differs ".") cur = true -> all_chars (differs ".") s = true ->
  let last := List.last (Urllib.split_on c0 cur s) EmptyString in
  (last =? ".")%string || (last =? "..")%string = false.
Proof.
  intros Hcur Hs last.
  assert (all_chars (differs ".") last = true) as Hlast.
  { apply (Forall_last_nonempty (fun seg => all_chars (differs ".") seg = true)).
    - by apply split_on_Forall.
    - by destruct (split_on_cons c0 cur s) as (seg & segs & ->). }
  destruct (String.eqb_spec last ".") as [Heq|_];
    [by rewrite Heq in Hlast|].
  destruct (String.eqb_spec last "..") as [Heq|_];
    [by rewrite Heq in Hlast|done].
Qed.

Ltac url_eval :=
  cbn [Urllib.scheme Urllib.netloc Urllib.path Urllib.params Urllib.query
       Urllib.fragment Urllib.nonempty negb orb andb].

Lemma urljoin_absolute (href : string) :
  all_chars Notions.path_char href = true ->
  String.prefix "/" href = true -> String.prefix "//" href = false ->
  Urllib.urljoin Collect.base_url href = Notions.origin +:+ href.
Proof.
  intros Hpath Habs Hnet. destruct href as [|c s]; [done|].
  assert (all_chars (differs ".") (String c s) = true) as Hdot.
  { apply (all_chars_impl Notions.path_char); [|done].
    intros a Ha. by destruct (path_char_facts a Ha) as (_&_&_&_&_&_&?). }
  unfold Urllib.urljoin. rewrite base_url_parsed. url_eval.
  rewrite urlparse_path by done. url_eval.
  assert (Urllib.in_list "https" Urllib.uses_relative = true) as ->
    by (vm_compute; reflexivity).
  assert (Urllib.in_list "https" Urllib.uses_netloc = true) as ->
    by (vm_compute; reflexivity).
  change ("https" =? "https")%string with true.
  change (Urllib.nonempty Collect.base_url) with true. url_eval.
  rewrite Habs.
  rewrite (last_segment_plain "/" EmptyString (String c s)) by done.
  rewrite resolve_plain
    by (apply split_on_Forall; [done|exact Hdot]).
  cbn [List.rev app]. rewrite join_split_on, str_app_nil_l. url_eval.
  unfold Urllib.urlunparse, Urllib.urlunsplit. url_eval.
  rewrite Habs. reflexivity.
Qed.

Lemma urljoin_slug (href : string) :
  all_chars Notions.slug_char href = true ->
  Urllib.urljoin Collect.base_url href = Collect.base_url +:+ href.
Proof.
  intros Hslug. destruct href as [|c s]; [by vm_compute|].
  assert (all_chars Notions.path_char (String c s) = true) as Hpath.
  { by apply (all_chars_impl Notions.slug_char), Hslug; apply slug_char_path. }
  assert (all_chars (differs "/") (String c s) = true) as Hslash.
  { by apply (all_chars_impl Notions.slug_char), Hslug; apply slug_char_no_slash. }
  assert (all_chars (differs ".") (String c s) = true) as Hdot.
  { apply (all_chars_impl Notions.path_char); [|done].
    intros a Ha. by destruct (path_char_facts a Ha) as (_&_&_&_&_&_&?). }
  assert (c <> "/"%char) as Hc.
  { cbn [all_chars] in Hslash. apply andb_prop in Hslash as [Hc _].
    by apply negb_true_iff, Ascii.eqb_neq in Hc. }
  assert (String.prefix "/" (String c s) = false) as Hrel.
  { cbn [String.prefix]. by destruct (ascii_dec "/" c) as [<-|]. }
  assert (String.prefix "//" (String c s) = false) as Hnet.
  { cbn [String.prefix]. by destruct (ascii_dec "/" c) as [<-|]. }
  unfold Urllib.urljoin. rewrite base_url_parsed. url_eval.
  rewrite urlparse_path by done. url_eval.
  assert (Urllib.in_list "https" Urllib.uses_relative = true) as ->
    by (vm_compute; reflexivity).
  assert (Urllib.in_list "https" Urllib.uses_netloc = true) as ->
    by (vm_compute; reflexivity).
  change ("https" =? "https")%string with true.
  change (Urllib.nonempty Collect.base_url) with true. url_eval.
  rewrite Hrel, (split_on_none "/" EmptyString (String c s)) by done.
  rewrite str_app_nil_l.
  change (Urllib.split_on "/" EmptyString "/informacion/discursos/")
    with [EmptyString; "informacion"; "discursos"; EmptyString]%string.
  cbn [List.last Urllib.nonempty List.removelast app Urllib.filter_inner
       List.filter].
  assert ((String c s =? ".")%string || (String c s =? "..")%string = false)
    as ->.
  { destruct (String.eqb_spec (String c s) ".") as [Heq|_];
      [by rewrite Heq in Hdot|].
    destruct (String.eqb_spec (String c s) "..") as [Heq|_];
      [by rewrite Heq in Hdot|done]. }
  rewrite resolve_plain by (by repeat constructor).
  cbn [List.rev app Py.join]. rewrite !str_app_nil_l. url_eval.
  unfold Urllib.urlunparse, Urllib.urlunsplit. url_eval.
  reflexivity.
Qed.

Lemma origin_not_base (href : string) :
  Notions.origin +:+ href <> Collect.base_url +:+ href.
Proof.
  intros Heq%(f_equal String.length). rewrite !str_app_length in Heq.
  vm_compute in Heq. lia.
Qed.

End UrlFacts.

(** X17.  With the base URL of the scripts, on an index page whose
    qualifying hrefs are slugs (letters, digits, hyphens and underscores),
    the two scripts list the same URLs: joining and appending give the same
    text. *)
Theorem slug_hrefs_same_urls
    (http_get : string -> response) (keyword : string)
    (status_code : Z) (soup : node) :
  http_get Collect.base_url = Response status_code soup ->
  raises_for_status status_code = false ->
  Forall (fun a => is_Some (Bs4.get "href" a)) (Spec.anchors soup) ->
  Forall (fun href => all_chars Notions.slug_char href = true)
    (Spec.qualifying keyword soup) ->
  Collect.get_discursos_urls http_get Collect.base_url keyword
    = Ret (List.map (String.append Collect.base_url)
             (Spec.qualifying keyword soup))
  /\ Monitor.get_discursos_urls http_get Collect.base_url keyword
     = Collect.get_discursos_urls http_get Collect.base_url keyword.
Proof.
  intros Hget Hstatus Hhref Hslug.
  unfold Collect.get_discursos_urls, Monitor.get_discursos_urls.
  rewrite Hget, Hstatus. fold (Spec.anchors soup).
  rewrite Collect_discursos_urls_ok, Monitor_discursos_urls_ok by done.
  fold (Spec.qualifying keyword soup).
  assert (List.map (Urllib.urljoin Collect.base_url)
            (Spec.qualifying keyword soup)
          = List.map (String.append Collect.base_url)
              (Spec.qualifying keyword soup)) as ->; [|done].
  induction Hslug as [|href hrefs Hh _ IH]; [done|].
  cbn [List.map]. by rewrite IH, urljoin_slug.
Qed.

(** The href of the test of the repository. *)
Lemma slug_hrefs_same_urls_witness :
  Collect.get_discursos_urls (Examples.index_net [Examples.anchor "milei-speech"])
      Collect.base_url "milei"
    = Ret (List.map (String.append Collect.base_url)
             (Spec.qualifying "milei"
                (Examples.index_page
                   [Examples.item [Examples.anchor "milei-speech"]])))
  /\ Monitor.get_discursos_urls
       (Examples.index_net [Examples.anchor "milei-speech"])
       Collect.base_url "milei"
     = Collect.get_discursos_urls
         (Examples.index_net [Examples.anchor "milei-speech"])
         Collect.base_url "milei".
Proof.
  apply (slug_hrefs_same_urls
           (Examples.index_net [Examples.anchor "milei-speech"]) "milei" 200
           (Examples.index_page [Examples.item [Examples.anchor "milei-speech"]]));
    [ reflexivity | reflexivity | | ].
  - repeat constructor. exists "milei-speech". reflexivity.
  - vm_compute. repeat constructor.
Defined.

(** X18.  With the base URL of the scripts, on an index page whose
    qualifying hrefs are absolute paths of slugs,
    [collect_and_update_data.py] lists each path behind the origin of the
    site, and [monitor_website.py] lists it behind the whole base URL: no
    href gives the same URL in both scripts. *)
Theorem absolute_hrefs_urls
    (http_get : string -> response) (keyword : string)
    (status_code : Z) (soup : node) :
  http_get Collect.base_url = Response status_code soup ->
  raises_for_status status_code = false ->
  Forall (fun a => is_Some (Bs4.get "href" a)) (Spec.anchors soup) ->
  Forall (fun href => all_chars Notions.path_char href = true
                      /\ String.prefix "/" href = true
                      /\ String.prefix "//" href = false)
    (Spec.qualifying keyword soup) ->
  Collect.get_discursos_urls http_get Collect.base_url keyword
    = Ret (List.map (String.append Notions.origin)
             (Spec.qualifying keyword soup))
  /\ Monitor.get_discursos_urls http_get Collect.base_url keyword
     = Ret (List.map (String.append Collect.base_url)
              (Spec.qualifying keyword soup))
  /\ Forall (fun href => Notions.origin +:+ href <> Collect.base_url +:+ href)
       (Spec.qualifying keyword soup).
Proof.
  intros Hget Hstatus Hhref Habs.
  unfold Collect.get_discursos_urls, Monitor.get_discursos_urls.
  rewrite Hget, Hstatus. fold (Spec.anchors soup).
  rewrite Collect_discursos_urls_ok, Monitor_discursos_urls_ok by done.
  fold (Spec.qualifying keyword soup).
  split; [|split; [done|]].
  - f_equal. induction Habs as [|href hrefs (Hp & Ha & Hn) _ IH]; [done|].
    cbn [List.map]. by rewrite IH, urljoin_absolute.
  - apply List.Forall_forall. intros href _. apply origin_not_base.
Qed.

(** An href as the site has them. *)
Lemma absolute_hrefs_urls_witness :
  let href := "/informacion/discursos/50000-discurso-de-milei" in
  let soup := Examples.index_page [Examples.item [Examples.anchor href]] in
  Collect.get_discursos_urls (Examples.index_net [Examples.anchor href])
      Collect.base_url "milei"
    = Ret (List.map (String.append Notions.origin)
             (Spec.qualifying "milei" soup))
  /\ Monitor.get_discursos_urls (Examples.index_net [Examples.anchor href])
       Collect.base_url "milei"
     = Ret (List.map (String.append Collect.base_url)
              (Spec.qualifying "milei" soup))
  /\ Forall (fun href => Notions.origin +:+ href <> Collect.base_url +:+ href)
       (Spec.qualifying "milei" soup).
Proof.
  apply (absolute_hrefs_urls
           (Examples.index_net
              [Examples.anchor "/informacion/discursos/50000-discurso-de-milei"])
           "milei" 200);
    [ reflexivity | reflexivity | | ].
  - repeat constructor. eexists. reflexivity.
  - vm_compute. repeat constructor.
Defined.

(* ===================================================================== *)
(** * The two batches *)
(* ===================================================================== *)

Section BatchAgreement.

Variable http_get : string -> response.


(** A page with a heading, an article and a date that can be read gives the
    same three values in both scripts. *)
Lemma complete_page_agree soup title content date :
  Collect.get_title soup = title -> title <> PNaN ->
  Collect.get_article_content soup = content -> content <> PNaN ->
  Collect.get_date soup = Ret date -> date <> PNaN ->
  Monitor.get_title soup = title
  /\ Monitor.get_article_content soup = content
  /\ Monitor.get_date soup = Ret date.
Proof.
  unfold Collect.get_title, Monitor.get_title, Collect.get_article_content,
    Monitor.get_article_content, Collect.get_date, Monitor.get_date.
  destruct (Bs4.find "h2" soup); [|congruence].
  destruct (Bs4.find "article" soup); [|congruence].
  destruct (Bs4.find "time" soup) as [time_tag|]; [|done].
  cbn [method_split mbind pyresult_bind Py.bind].
  destruct (Datetime.strptime _) as [dt|e] eqn:Hp;
    cbn [mbind pyresult_bind Py.bind].
  - by intros <- _ <- _ [= <-] _.
  - apply strptime_raises in Hp as ->. by intros _ _ _ _ [= <-] ?.
Qed.

End BatchAgreement.



(** X20.  When every response is 200 or an error, a table without a missing
    value that [collect_and_update_data.py] builds from a list of URLs is the
    list of records that [monitor_website.py] builds from the same list,
    whatever the order in which its requests complete. *)
Theorem complete_table_agreement
    (http_get : string -> response) (urls : list string)
    (order : list nat) (rows : list record) :
  order ≡ₚ seq 0 (length urls) ->
  (forall u, u ∈ urls ->
             Monitor.get_content http_get u = Collect.get_content http_get u) ->
  Collect.create_dataframe http_get urls = Ret rows ->
  Forall (fun r => title r <> PNaN /\ content r <> PNaN /\ date r <> PNaN)
    rows ->
  Monitor.create_data http_get urls order = Some (Ret rows).
Proof.
  intros Horder Hsame Hrows Hfull.
  rewrite create_data_joined by done. f_equal. clear Horder. unfold joined.
  revert rows Hrows Hfull. induction urls as [|u urls IH]; intros rows.
  { by intros [= <-]. }
  cbn [Collect.create_dataframe List.map zip zip_with Monitor.rows_of].
  rewrite (Hsame u) by left.
  assert (forall u', u' ∈ urls ->
           Monitor.get_content http_get u' = Collect.get_content http_get u')
    as Hsame' by (intros u' Hu'; apply Hsame; by right).
  destruct (Collect.get_content http_get u) as [soup|]; [|by apply IH].
  destruct (Collect.get_date soup) as [date|] eqn:Hdate; [|done].
  destruct (Collect.create_dataframe http_get urls) as [data|]; [|done].
  cbn [mbind pyresult_bind Py.bind]. intros [= <-].
  intros [(Ht & Hc & Hd) Hdata]%Forall_cons. cbn in Ht, Hc, Hd.
  destruct (complete_page_agree soup _ _ _ eq_refl Ht eq_refl Hc Hdate Hd)
    as (-> & -> & ->).
  cbn [mbind pyresult_bind Py.bind]. by rewrite (IH Hsame' data eq_refl Hdata).
Qed.

(** Three articles, the second of which cannot be fetched. *)
Lemma complete_table_agreement_witness :
  Monitor.create_data Examples.batch_net
    ["https://www.casarosada.gob.ar/a"; "https://www.casarosada.gob.ar/down";
     "https://www.casarosada.gob.ar/b"] [2; 0; 1]%nat
  = Some (Ret [Row (PStr "https://www.casarosada.gob.ar/a") (PStr "Texto")
                 (PStr "2025-02-13") "https://www.casarosada.gob.ar/a";
               Row (PStr "https://www.casarosada.gob.ar/b") (PStr "Texto")
                 (PStr "2025-02-13") "https://www.casarosada.gob.ar/b"]).
Proof.
  apply (complete_table_agreement Examples.batch_net).
  - simpl. etrans; [apply perm_swap | apply perm_skip, perm_swap].
  - intros u Hu. 
    repeat (apply elem_of_cons in Hu as [->|Hu]; [reflexivity|]).
    by apply elem_of_nil in Hu.
  - vm_compute. reflexivity.
  - repeat constructor; discriminate.
Defined.
